(** * Romania RSS Feed: the profile directory and the statistics page

    A shallow embedding of the two browser scripts of the site:

    - [assets/app.js], the profile directory (load, search, sort, cards,
      counters), embedded in [Module App];
    - the statistics page script (load, overview counters, top-10 lists,
      server statistics), embedded in [Module StatsPage].

    Conventions of the embedding.

    - A JavaScript string is a [string]: the bytes of its UTF-8 encoding.
      The text that the page deals with is well-formed, and on such text
      concatenation, equality and [includes] are the same on the bytes as
      on the code units of the language.  What goes by the Unicode tables
      ([toLowerCase], [toUpperCase], [trim], [charAt]) and the parser of
      markup belong to the engine that runs the script: they are the
      methods of the class [Engine], of which nothing is assumed.
    - A JavaScript number that holds a count or a time stamp is an [N] or a
      [Z]: the counts of the data and their sums are safe integers, on
      which the arithmetic of doubles is exact.  The fractional values of
      the counter animation are exact rationals [Q].
    - An optional JSON field is an [option]; [a || b] on such a field is
      [or_str] / [or_num] (an absent field, the empty string and 0 are
      falsy).
    - Arrays are objects: they live in a heap indexed by locations, so that
      in-place sorting and copying by spread are told apart.
    - The DOM is a map from element ids to the text or markup they hold;
      an id that is not in the map is an element that the page lacks.
    - What the browser alone decides is taken as a parameter: the engine,
      [localeCompare], the parsing of dates, the clock and the outcome of
      a fetch. *)

From Stdlib Require Import ZArith QArith Qround String Ascii DecimalString.
From stdpp Require Import gmap strings list sorting.

(** ** Built-ins of the language and of the browser *)

Module JS.

(** The double quote and the line feed, for the markup templates. *)
Definition dq : string := String (ascii_of_nat 34) "".
Definition nl : string := String (ascii_of_nat 10) "".

(** [name="value"] *)
Definition attr (name value : string) : string :=
  name +:+ "=" +:+ dq +:+ value +:+ dq.

(** The lines of a template literal, joined by line feeds. *)
Definition lines (ls : list string) : string := String.concat nl ls.

(** *** [a || b] on optional fields *)

Definition or_str (a : option string) (b : string) : string :=
  match a with
  | Some s => if String.eqb s "" then b else s
  | None => b
  end.

Definition or_num (a : option N) (b : N) : N :=
  match a with
  | Some n => if N.eqb n 0 then b else n
  | None => b
  end.

Definition truthy (a : option string) : bool :=
  match a with
  | Some s => negb (String.eqb s "")
  | None => false
  end.

(** *** String.prototype methods and the parser of markup

    What the engine computes on the encoded strings. *)
Class Engine := {
  (** [s.toLowerCase()] and [s.toUpperCase()], by the Unicode tables *)
  toLowerCase : string → string;
  toUpperCase : string → string;
  (** [s.trim()]: without the white space and the line terminators of
      Unicode at either end *)
  trim : string → string;
  (** [s.charAt(0)]: the first code unit as a string, or the empty
      string *)
  charAt0 : string → string;
  (** [textContent] of an element whose [innerHTML] was set to [html] *)
  text_of_markup : string → string;
}.

(** [s.includes(t)]: [t] occurs in [s] as a contiguous substring. *)
Fixpoint includes (s t : string) : bool :=
  String.prefix t s ||
  match s with
  | EmptyString => false
  | String _ r => includes r t
  end.

(** *** Number.prototype.toString and Math.floor, on integers

    The decimal writing of an integer, which is what [toString] gives on
    the safe integers, those of absolute value up to [2 ^ 53]. *)

Definition max_safe : Z := 2 ^ 53.

Definition toString (z : Z) : string := NilZero.string_of_int (Z.to_int z).

Definition Math_floor (q : Q) : Z := Qfloor q.

(** [a < b] on numbers. *)
Definition Qlt_bool (a b : Q) : bool := negb (Qle_bool b a).

(** *** Array.prototype methods *)

(** [a.sort(cmp)]: a stable sort by the sign of the comparator, as the
    language requires of every engine: for a consistent comparator the
    result of a stable sort is unique, and it is the list below.  For a
    comparator that is not consistent the language leaves the order to
    the engine; what is proved of the order assumes a consistent one.  A
    comparator result that is NaN counts as 0; the comparators below
    return 0 in that case. *)
Section Sort.
Context {A : Type} (cmp : A → A → Z).

Fixpoint sort_insert (x : A) (l : list A) : list A :=
  match l with
  | [] => [x]
  | y :: r => if (cmp x y <=? 0)%Z then x :: l else y :: sort_insert x r
  end.

Fixpoint sort (l : list A) : list A :=
  match l with
  | [] => []
  | x :: r => sort_insert x (sort r)
  end.
End Sort.

(** [a.filter(f)] for a callback whose result depends on when it runs:
    the callback is given the element and its index. *)
Fixpoint filter_from {A} (f : nat → A → bool) (i : nat) (l : list A)
    : list A :=
  match l with
  | [] => []
  | x :: r =>
      if f i x then x :: filter_from f (S i) r else filter_from f (S i) r
  end.

(** [a.slice(0, n)] *)
Definition slice0 {A} (n : nat) (l : list A) : list A := take n l.

(** *** The DOM as a text container *)

(** The no-break space U+00A0, as its two bytes. *)
Definition nbsp : string :=
  String (ascii_of_nat 194) (String (ascii_of_nat 160) EmptyString).

(** Reading [innerHTML] of an element whose [textContent] was set: the
    serialisation of a text node escapes [&], [<], [>] and the no-break
    space. *)
Fixpoint serialize_text (text : string) : string :=
  match text with
  | EmptyString => EmptyString
  | String c r =>
      let n := nat_of_ascii c in
      if (n =? 38)%nat then "&amp;" +:+ serialize_text r
      else if (n =? 60)%nat then "&lt;" +:+ serialize_text r
      else if (n =? 62)%nat then "&gt;" +:+ serialize_text r
      else
        match r with
        | String d r' =>
            if (n =? 194)%nat && (nat_of_ascii d =? 160)%nat
            then "&nbsp;" +:+ serialize_text r'
            else String c (serialize_text r)
        | EmptyString => String c EmptyString
        end
  end.

(** A letter of [[A-Za-z]]. *)
Definition is_alpha (c : ascii) : bool :=
  let n := nat_of_ascii c in
  ((65 <=? n)%nat && (n <=? 90)%nat) || ((97 <=? n)%nat && (n <=? 122)%nat).

(** A digit and a word character of a regular expression: [[0-9]] and
    [[A-Za-z0-9_]]. *)
Definition is_digit (c : ascii) : bool :=
  let n := nat_of_ascii c in (48 <=? n)%nat && (n <=? 57)%nat.

Definition is_word (c : ascii) : bool :=
  is_alpha c || is_digit c || (nat_of_ascii c =? 95)%nat.

(** The length of the run of digits at the head of a string. *)
Fixpoint digit_run (s : string) : nat :=
  match s with
  | String c r => if is_digit c then S (digit_run r) else 0
  | EmptyString => 0
  end.

End JS.

Import JS.

(** ** The data model: one record of [/data/profiles.json] *)

Record Profile := {
  username : option string;
  display_name : option string;
  note : option string;
  avatar : option string;
  statuses_count : option N;
  followers_count : option N;
  following_count : option N;
  last_status_at : option string;
  created_at : option string;
  instance : option string;
  acct : option string;
}.

(** How a fetch followed by [response.json()] ends. *)
Inductive Fetched (A : Type) :=
  | NetworkError                 (* the fetch itself rejects *)
  | HttpError (status : nat)     (* [response.ok] is false *)
  | ParseError                   (* [response.json()] rejects *)
  | Loaded (a : A).
Arguments NetworkError {A}.
Arguments HttpError {A} status.
Arguments ParseError {A}.
Arguments Loaded {A} a.

Definition failed {A} (r : Fetched A) : bool :=
  match r with Loaded _ => false | _ => true end.

(** Array objects live in a heap; a variable holds a location. *)
Abbreviation loc := positive.

Definition alloc {A} (h : gmap loc A) (v : A) : loc * gmap loc A :=
  let l := fresh (dom h) in (l, <[l := v]> h).

(** ** Functions that the two scripts carry in identical copies *)

Module Common.

(** [formatNumber]: a comma goes at every position that is not a word
    boundary and is followed by a run of digits whose length is a positive
    multiple of three. *)
Definition comma_here (prev : option ascii) (s : string) : bool :=
  match prev with
  | Some p =>
      is_word p && (0 <? digit_run s)%nat && (digit_run s mod 3 =? 0)%nat
  | None => false
  end.

Fixpoint insert_commas (prev : option ascii) (s : string) : string :=
  match s with
  | EmptyString => EmptyString
  | String c r =>
      (if comma_here prev s then "," else "") +:+
      String c (insert_commas (Some c) r)
  end.

Definition formatNumber (num : Z) : string :=
  insert_commas None (toString num).

Definition escapeHtml (text : string) : string := serialize_text text.

(** [animateValue]: the state that the interval callback closes over.
    [setInterval] registers the callback; [clearInterval] unregisters it,
    which is the flag [ticking].  The sums and quotients are exact; the
    code rounds them to doubles, which can lower by one what a tick
    shows on the way, and changes neither the tick that stops the counter
    nor the value it then shows. *)
Record Timer := {
  element : string;
  finish : Q;          (* [end] *)
  increment : Q;
  current : Q;
  ticking : bool;
}.

Definition animateValue (doc : gmap string string)
    (id : string) (start finish duration : Q) : option Timer :=
  match doc !! id with
  | None => None
  | Some _ =>
      let range := (finish - start)%Q in
      let increment := (range / (duration / 16))%Q in
      Some {| element := id; finish := finish; increment := increment;
              current := start; ticking := true |}
  end.

(** One run of the interval callback. *)
Definition tick (t : Timer) (doc : gmap string string)
    : Timer * gmap string string :=
  let current := (current t + increment t)%Q in
  let stop :=
    (Qlt_bool 0 (increment t) && Qle_bool (finish t) current) ||
    (Qlt_bool (increment t) 0 && Qle_bool current (finish t)) in
  let current := if stop then finish t else current in
  ({| element := element t; finish := finish t; increment := increment t;
      current := current; ticking := ticking t && negb stop |},
   <[element t := formatNumber (Math_floor current)]> doc).

(** The event loop runs the callback only while it is registered. *)
Definition fire (t : Timer) (doc : gmap string string)
    : Timer * gmap string string :=
  if ticking t then tick t doc else (t, doc).

(** The callback of [profilesData.filter] that counts the active
    profiles; [getTime] is the time value of [new Date(s)], [None] when
    the date is invalid (NaN), and [now] is what [Date.now()] returns in
    this run of the callback.  Time values are integers, for which the
    quotient in doubles compares with 30 as the exact quotient does: one
    millisecond more moves it by more than a hundred-millionth. *)
Definition recently_active (getTime : string → option Z) (now : Z)
    (p : Profile) : bool :=
  if truthy (last_status_at p) then
    match getTime (or_str (last_status_at p) "") with
    | Some lastStatus =>
        let daysSince :=
          (inject_Z (now - lastStatus) / inject_Z (1000 * 60 * 60 * 24))%Q in
        Qle_bool daysSince 30
    | None => false
    end
  else false.

End Common.

(** ** [assets/app.js]: the profile directory *)

Module App.
Import Common.

Record State := {
  heap : gmap loc (list Profile);    (* the array objects *)
  profilesData : loc;
  filteredProfiles : loc;
  document : gmap string string;     (* element id to content *)
  console : list string;             (* lines of [console.error] *)
  timers : list Timer;               (* intervals of [animateValue] *)
  on_input : bool;                   (* listener on [searchInput] *)
  on_change : bool;                  (* listener on [sortSelect] *)
}.

Definition set_arrays (h : gmap loc (list Profile)) (pd fp : loc)
    (st : State) : State :=
  {| heap := h; profilesData := pd; filteredProfiles := fp;
     document := document st; console := console st; timers := timers st;
     on_input := on_input st; on_change := on_change st |}.

Definition set_document (d : gmap string string) (st : State) : State :=
  {| heap := heap st; profilesData := profilesData st;
     filteredProfiles := filteredProfiles st;
     document := d; console := console st; timers := timers st;
     on_input := on_input st; on_change := on_change st |}.

Definition set_timers (d : gmap string string) (ts : list Timer)
    (st : State) : State :=
  {| heap := heap st; profilesData := profilesData st;
     filteredProfiles := filteredProfiles st;
     document := d; console := console st; timers := ts;
     on_input := on_input st; on_change := on_change st |}.

Definition console_error (line : string) (st : State) : State :=
  {| heap := heap st; profilesData := profilesData st;
     filteredProfiles := filteredProfiles st;
     document := document st; console := console st ++ [line];
     timers := timers st;
     on_input := on_input st; on_change := on_change st |}.

Definition set_listeners (i c : bool) (st : State) : State :=
  {| heap := heap st; profilesData := profilesData st;
     filteredProfiles := filteredProfiles st;
     document := document st; console := console st; timers := timers st;
     on_input := i; on_change := c |}.

(** The array that a variable points to. *)
Definition array (st : State) (l : loc) : list Profile :=
  default [] (heap st !! l).

(** The two views of the claims. *)
Definition source (st : State) : list Profile := array st (profilesData st).
Definition view (st : State) : list Profile := array st (filteredProfiles st).

(** [let profilesData = []; let filteredProfiles = [];] on a page whose
    elements are those of [doc]. *)
Definition start (doc : gmap string string) : State :=
  {| heap := {[ 1%positive := []; 2%positive := [] ]};
     profilesData := 1%positive; filteredProfiles := 2%positive;
     document := doc; console := []; timers := [];
     on_input := false; on_change := false |}.

(** The parameters of the browser: the engine, [a.localeCompare(b)] as an
    integer of the same sign, and [new Date(s).getTime()], [None] when the
    date is invalid (NaN). *)
Section Browser.
Context {Eng : Engine}.
Variable localeCompare : string → string → Z.
Variable getTime : string → option Z.

Definition stripHtml (html : string) : string :=
  or_str (Some (text_of_markup html)) "".

Definition error_message : string :=
  "Nu s-au putut încărca profilurile. Te rugăm să reîmprospătezi pagina.".

Definition error_markup (message : string) : string :=
  lines [
    "";
    "      <div " +:+ attr "class" "empty-state" +:+ ">";
    "        <p " +:+ attr "style" "color: var(--accent-2);" +:+ ">"
      +:+ escapeHtml message +:+ "</p>";
    "      </div>";
    "    " ].

Definition showError (message : string) (st : State) : State :=
  match document st !! "profilesGrid" with
  | Some _ =>
      set_document (<["profilesGrid" := error_markup message]> (document st)) st
  | None => st
  end.

Definition loadProfiles (response : Fetched (list Profile)) (st : State)
    : State :=
  match response with
  | Loaded json =>
      let '(pd, h1) := alloc (heap st) json in
      let '(fp, h2) := alloc h1 json in
      set_arrays h2 pd fp st
  | _ =>
      showError error_message (console_error "Error loading profiles:" st)
  end.

Definition setupSearch (st : State) : State :=
  set_listeners (bool_decide (is_Some (document st !! "searchInput")))
                (bool_decide (is_Some (document st !! "sortSelect"))) st.

Definition updateResultsCount (st : State) : State :=
  match document st !! "resultsCount" with
  | Some _ =>
      set_document
        (<["resultsCount" := toString (Z.of_nat (length (view st)))]>
           (document st)) st
  | None => st
  end.

Definition empty_markup : string :=
  lines [
    "";
    "      <div " +:+ attr "class" "empty-state" +:+ ">";
    "        <svg " +:+ attr "viewBox" "0 0 24 24" +:+ " "
      +:+ attr "fill" "none" +:+ " " +:+ attr "stroke" "currentColor"
      +:+ " " +:+ attr "stroke-width" "2" +:+ ">";
    "          <circle " +:+ attr "cx" "11" +:+ " " +:+ attr "cy" "11"
      +:+ " " +:+ attr "r" "8" +:+ "></circle>";
    "          <path " +:+ attr "d" "m21 21-4.35-4.35" +:+ "></path>";
    "        </svg>";
    "        <p>Nu s-au găsit profiluri care să corespundă criteriilor de căutare.</p>";
    "      </div>";
    "    " ].

Definition svg_open : string :=
  "          <svg " +:+ attr "viewBox" "0 0 24 24" +:+ " "
    +:+ attr "fill" "none" +:+ " " +:+ attr "stroke" "currentColor"
    +:+ " " +:+ attr "stroke-width" "2" +:+ ">".

Definition createProfileCard (profile : Profile) : string :=
  let displayName :=
    or_str (display_name profile) (or_str (username profile) "Fără nume") in
  let username := or_str (username profile) "" in
  let description := or_str (note profile) "Fără descriere" in
  let avatar := or_str (avatar profile) "" in
  let avatarInitial := toUpperCase (charAt0 displayName) in
  let posts := or_num (statuses_count profile) 0 in
  let followers := or_num (followers_count profile) 0 in
  let instance := or_str (instance profile) "social.5th.ro" in
  lines [
    "";
    "    <div " +:+ attr "class" "profile-card" +:+ ">";
    "      <div " +:+ attr "class" "profile-header" +:+ ">";
    "        <div " +:+ attr "class" "profile-avatar" +:+ ">";
    "          " +:+
      (if negb (String.eqb avatar "") then
         "<img " +:+ attr "src" avatar +:+ " " +:+ attr "alt" displayName
           +:+ " " +:+ attr "width" "64" +:+ " " +:+ attr "height" "64"
           +:+ " " +:+ attr "loading" "lazy" +:+ " "
           +:+ attr "decoding" "async" +:+ " "
           +:+ attr "onerror" "this.style.display='none'; this.nextElementSibling.style.display='flex';"
           +:+ " "
           +:+ attr "style" "width:100%;height:100%;object-fit:cover;border-radius:var(--radius);"
           +:+ ">" +:+ nl
           +:+ "          <span " +:+ attr "style" "display:none;" +:+ ">"
           +:+ avatarInitial +:+ "</span>"
       else "<span>" +:+ avatarInitial +:+ "</span>");
    "        </div>";
    "        <div " +:+ attr "class" "profile-info" +:+ ">";
    "          <h3 " +:+ attr "class" "profile-name" +:+ ">"
      +:+ escapeHtml displayName +:+ "</h3>";
    "          <p " +:+ attr "class" "profile-username" +:+ ">@"
      +:+ escapeHtml (or_str (acct profile) (username +:+ "@" +:+ instance))
      +:+ "</p>";
    "        </div>";
    "      </div>";
    "      <p " +:+ attr "class" "profile-description" +:+ ">"
      +:+ escapeHtml (stripHtml description) +:+ "</p>";
    "      <div " +:+ attr "class" "profile-stats" +:+ ">";
    "        <div " +:+ attr "class" "profile-stat" +:+ ">";
    svg_open;
    "            <path " +:+ attr "d" "M4 19.5A2.5 2.5 0 0 1 6.5 17H20"
      +:+ "></path>";
    "            <path "
      +:+ attr "d" "M6.5 2H20v20H6.5A2.5 2.5 0 0 1 4 19.5v-15A2.5 2.5 0 0 1 6.5 2z"
      +:+ "></path>";
    "          </svg>";
    "          <strong>" +:+ formatNumber (Z.of_N posts)
      +:+ "</strong> postări";
    "        </div>";
    "        <div " +:+ attr "class" "profile-stat" +:+ ">";
    svg_open;
    "            <path "
      +:+ attr "d" "M17 21v-2a4 4 0 0 0-4-4H5a4 4 0 0 0-4 4v2" +:+ "></path>";
    "            <circle " +:+ attr "cx" "9" +:+ " " +:+ attr "cy" "7"
      +:+ " " +:+ attr "r" "4" +:+ "></circle>";
    "            <path " +:+ attr "d" "M23 21v-2a4 4 0 0 0-3-3.87"
      +:+ "></path>";
    "            <path " +:+ attr "d" "M16 3.13a4 4 0 0 1 0 7.75"
      +:+ "></path>";
    "          </svg>";
    "          <strong>" +:+ formatNumber (Z.of_N followers)
      +:+ "</strong> urmăritori";
    "        </div>";
    "      </div>";
    "    </div>";
    "  " ].

(** [grid.innerHTML = ...]; the click handlers that follow only navigate
    away from the page and are left out. *)
Definition renderProfiles (st : State) : State :=
  match document st !! "profilesGrid" with
  | None => st
  | Some _ =>
      if (length (view st) =? 0)%nat then
        set_document (<["profilesGrid" := empty_markup]> (document st)) st
      else
        set_document
          (<["profilesGrid" :=
               String.concat "" (map createProfileCard (view st))]>
             (document st)) st
  end.

(** The callback of [profilesData.filter] in [handleSearch]. *)
Definition search_match (query : string) (profile : Profile) : bool :=
  let name :=
    toLowerCase
      (or_str (display_name profile) (or_str (username profile) "")) in
  let username := toLowerCase (or_str (username profile) "") in
  let description := toLowerCase (or_str (note profile) "") in
  let searchTerm := toLowerCase query in
  includes name searchTerm || includes username searchTerm
    || includes description searchTerm.

(** [handleSearch(e)], where [value] is [e.target.value]. *)
Definition handleSearch (value : string) (st : State) : State :=
  let query := trim (toLowerCase value) in
  let found :=
    if String.eqb query "" then source st
    else List.filter (search_match query) (source st) in
  let '(fp, h) := alloc (heap st) found in
  renderProfiles (updateResultsCount (set_arrays h (profilesData st) fp st)).

(** [new Date(p.created_at || 0)] as a time value. *)
Definition created (p : Profile) : option Z :=
  if truthy (created_at p) then getTime (or_str (created_at p) "")
  else Some 0%Z.

(** The comparator of [handleSort]; a NaN difference counts as 0. *)
Definition comparator (sortBy : string) (a b : Profile) : Z :=
  if String.eqb sortBy "name" then
    localeCompare
      (or_str (display_name a) (or_str (username a) ""))
      (or_str (display_name b) (or_str (username b) ""))
  else if String.eqb sortBy "posts" then
    (Z.of_N (or_num (statuses_count b) 0)
       - Z.of_N (or_num (statuses_count a) 0))%Z
  else if String.eqb sortBy "followers" then
    (Z.of_N (or_num (followers_count b) 0)
       - Z.of_N (or_num (followers_count a) 0))%Z
  else if String.eqb sortBy "recent" then
    match created b, created a with
    | Some tb, Some ta => (tb - ta)%Z
    | _, _ => 0%Z
    end
  else 0%Z.

(** [handleSort(e)], where [sortBy] is [e.target.value]: the array that
    [filteredProfiles] points to is sorted in place. *)
Definition handleSort (sortBy : string) (st : State) : State :=
  let sorted := sort (comparator sortBy) (view st) in
  renderProfiles
    (set_arrays (<[filteredProfiles st := sorted]> (heap st))
                (profilesData st) (filteredProfiles st) st).

(** [animateValue(id, 0, finish, 1000)] from [updateStats]. *)
Definition animate (id : string) (finish : N) (st : State) : State :=
  match animateValue (document st) id 0
          (inject_Z (Z.of_N finish)) 1000 with
  | Some t => set_timers (document st) (timers st ++ [t]) st
  | None => st
  end.

Definition total (count : Profile → option N) (ps : list Profile) : N :=
  fold_left (λ sum p, (sum + or_num (count p) 0)%N) ps 0%N.

Definition activeProfiles (now : nat → Z) (ps : list Profile) : N :=
  N.of_nat
    (length (filter_from (λ i p, recently_active getTime (now i) p) 0 ps)).

(** [updateStats()], where [now i] is what [Date.now()] returns when the
    callback runs on the element of index [i]. *)
Definition updateStats (now : nat → Z) (st : State) : State :=
  let totalProfiles := N.of_nat (length (source st)) in
  let totalPosts := total statuses_count (source st) in
  let totalFollowers := total followers_count (source st) in
  let activeProfiles := activeProfiles now (source st) in
  animate "activeProfiles" activeProfiles
    (animate "totalFollowers" totalFollowers
       (animate "totalPosts" totalPosts
          (animate "totalProfiles" totalProfiles st))).

(** The handler of [DOMContentLoaded]. *)
Definition DOMContentLoaded (response : Fetched (list Profile))
    (now : nat → Z) (st : State) : State :=
  renderProfiles (updateStats now (setupSearch (loadProfiles response st))).

(** What happens after the page is initialised: input in the search
    box, a change of the sort key, and the intervals of the counters. *)
Inductive Event :=
  | Input (value : string)
  | Change (sortBy : string)
  | Interval (i : nat).

Definition dispatch (st : State) (e : Event) : State :=
  match e with
  | Input value => if on_input st then handleSearch value st else st
  | Change sortBy => if on_change st then handleSort sortBy st else st
  | Interval i =>
      match timers st !! i with
      | Some t =>
          let '(t', d) := fire t (document st) in
          set_timers d (<[i := t']> (timers st)) st
      | None => st
      end
  end.

Definition run (es : list Event) (st : State) : State :=
  fold_left dispatch es st.

End Browser.

End App.

(** ** The statistics page script

    The source holds two revisions of this script, which differ in
    [renderServerStats] alone; the first one is embedded. *)

Module StatsPage.
Import Common.

(** One record of [/data/server-stats.json]; [other_keys] counts the keys
    of the object that the script does not read. *)
Record Counts := {
  user_count : option N;
  status_count : option N;
  domain_count : option N;
}.

Record ServerStats := {
  version : option string;
  stats : option Counts;
  title : option string;
  short_description : option string;
  other_keys : nat;
}.

Record State := {
  profilesData : list Profile;
  document : gmap string string;
  console : list string;
  timers : list Timer;
}.

Definition start (doc : gmap string string) : State :=
  {| profilesData := []; document := doc; console := []; timers := [] |}.

Definition set_document (d : gmap string string) (st : State) : State :=
  {| profilesData := profilesData st; document := d;
     console := console st; timers := timers st |}.

Definition console_error (line : string) (st : State) : State :=
  {| profilesData := profilesData st; document := document st;
     console := console st ++ [line]; timers := timers st |}.

Definition loadProfiles (response : Fetched (list Profile)) (st : State)
    : State :=
  match response with
  | Loaded json =>
      {| profilesData := json; document := document st;
         console := console st; timers := timers st |}
  | _ => console_error "Error loading profiles:" st
  end.

Definition animate (id : string) (finish : N) (st : State) : State :=
  match animateValue (document st) id 0 (inject_Z (Z.of_N finish)) 1000 with
  | Some t =>
      {| profilesData := profilesData st; document := document st;
         console := console st; timers := timers st ++ [t] |}
  | None => st
  end.

Definition total (count : Profile → option N) (ps : list Profile) : N :=
  fold_left (λ sum p, (sum + or_num (count p) 0)%N) ps 0%N.

(** [%XX] for a byte, as [encodeURIComponent] writes it. *)
Definition hex_digit (n : nat) : ascii :=
  ascii_of_nat (if (n <? 10)%nat then 48 + n else 55 + n).

Definition unreserved (c : ascii) : bool :=
  is_alpha c || is_digit c ||
  bool_decide (nat_of_ascii c ∈ [45; 95; 46; 33; 126; 42; 39; 40; 41]).

Fixpoint encodeURIComponent (s : string) : string :=
  match s with
  | EmptyString => EmptyString
  | String c r =>
      (if unreserved c then String c EmptyString
       else
         let n := nat_of_ascii c in
         String "%" (String (hex_digit (n / 16))
                       (String (hex_digit (n mod 16)) EmptyString)))
      +:+ encodeURIComponent r
  end.

(** An absent [username] is written as [undefined]. *)
Definition uri_of (u : option string) : string :=
  match u with
  | Some s => encodeURIComponent s
  | None => "undefined"
  end.

(** One row of a top list; [index] counts from 0. *)
Definition top_item (count : Profile → option N) (index : nat)
    (profile : Profile) : string :=
  lines [
    "";
    "      <div " +:+ attr "class" "top-profile-item" +:+ " "
      +:+ attr "onclick"
            ("window.location.href='/profiles/"
               +:+ uri_of (username profile) +:+ "/'") +:+ ">";
    "        <div " +:+ attr "class" "top-profile-info" +:+ ">";
    "          <div " +:+ attr "class" "top-profile-rank" +:+ ">#"
      +:+ toString (Z.of_nat (index + 1)) +:+ "</div>";
    "          <div>";
    "            <div " +:+ attr "class" "top-profile-name" +:+ ">"
      +:+ escapeHtml
            (or_str (display_name profile) (or_str (username profile) ""))
      +:+ "</div>";
    "            <div "
      +:+ attr "style" "font-size: 14px; color: var(--text-muted);" +:+ ">@"
      +:+ escapeHtml (or_str (username profile) "") +:+ "</div>";
    "          </div>";
    "        </div>";
    "        <div " +:+ attr "class" "top-profile-stat" +:+ ">"
      +:+ formatNumber (Z.of_N (or_num (count profile) 0)) +:+ "</div>";
    "      </div>";
    "    " ].

(** The comparator of the two sorts of [renderTopProfiles]. *)
Definition descending (count : Profile → option N) (a b : Profile) : Z :=
  (Z.of_N (or_num (count b) 0) - Z.of_N (or_num (count a) 0))%Z.

(** [[...profilesData].sort(...).slice(0, 10)] *)
Definition top (count : Profile → option N) (ps : list Profile)
    : list Profile :=
  slice0 10 (sort (descending count) ps).

Definition topPosts (ps : list Profile) : list Profile :=
  top statuses_count ps.

Definition topFollowers (ps : list Profile) : list Profile :=
  top followers_count ps.

Definition render_top (id : string) (count : Profile → option N)
    (rows : list Profile) (st : State) : State :=
  match document st !! id with
  | Some _ =>
      set_document
        (<[id := String.concat "" (imap (top_item count) rows)]>
           (document st)) st
  | None => st
  end.

Definition renderTopProfiles (st : State) : State :=
  render_top "topFollowers" followers_count (topFollowers (profilesData st))
    (render_top "topPosts" statuses_count (topPosts (profilesData st)) st).

Definition unavailable_markup : string :=
  "<p " +:+ attr "style" "color: var(--text-muted);"
    +:+ ">Statisticile serverului nu sunt disponibile momentan.</p>".

Definition label_style : string :=
  attr "style" "font-size: 14px; color: var(--text-muted); margin-bottom: 8px;".

Definition value_style : string :=
  attr "style" "font-size: 24px; font-weight: 700; color: var(--text);".

Definition stat_cell (label value : string) : list string :=
  [ "      <div>";
    "        <div " +:+ label_style +:+ ">" +:+ label +:+ "</div>";
    "        <div " +:+ value_style +:+ ">" +:+ value +:+ "</div>";
    "      </div>" ].

Definition no_keys (s : ServerStats) : bool :=
  bool_decide (version s = None) && bool_decide (stats s = None)
    && bool_decide (title s = None)
    && bool_decide (short_description s = None)
    && (other_keys s =? 0)%nat.

Definition count_of (c : option Counts) (f : Counts → option N) : N :=
  match c with
  | Some c => or_num (f c) 0
  | None => 0%N
  end.

Definition renderServerStats (s : ServerStats) (st : State) : State :=
  match document st !! "serverStats" with
  | None => st
  | Some _ =>
      let version := or_str (version s) "N/A" in
      let userCount := count_of (stats s) user_count in
      let statusCount := count_of (stats s) status_count in
      let domainCount := count_of (stats s) domain_count in
      if no_keys s then
        set_document (<["serverStats" := unavailable_markup]> (document st)) st
      else
        set_document
          (<["serverStats" :=
             lines
               ([ "";
                  "    <div "
                    +:+ attr "style" "display: grid; grid-template-columns: repeat(auto-fit, minmax(200px, 1fr)); gap: 24px;"
                    +:+ ">" ]
                ++ stat_cell "Versiune Mastodon" (escapeHtml version)
                ++ stat_cell "Utilizatori Totali"
                     (formatNumber (Z.of_N userCount))
                ++ stat_cell "Statusuri Totale"
                     (formatNumber (Z.of_N statusCount))
                ++ stat_cell "Domenii Conectate"
                     (formatNumber (Z.of_N domainCount))
                ++ [ "    </div>";
                     "    " +:+
                     (if truthy (title s) then
                        lines [
                          "";
                          "    <div "
                            +:+ attr "style" "margin-top: 32px; padding-top: 24px; border-top: 1px solid var(--border);"
                            +:+ ">";
                          "      <div " +:+ label_style
                            +:+ ">Titlu Server</div>";
                          "      <div "
                            +:+ attr "style" "font-size: 18px; font-weight: 600; color: var(--text);"
                            +:+ ">" +:+ escapeHtml (or_str (title s) "")
                            +:+ "</div>";
                          "      " +:+
                          (if truthy (short_description s) then
                             "<div "
                               +:+ attr "style" "font-size: 14px; color: var(--text-muted); margin-top: 8px;"
                               +:+ ">"
                               +:+ escapeHtml (or_str (short_description s) "")
                               +:+ "</div>"
                           else "");
                          "    </div>";
                          "    " ]
                      else "");
                     "  " ])]>
             (document st)) st
  end.

Definition loadServerStats (response : Fetched ServerStats) (st : State)
    : State :=
  match response with
  | Loaded s => renderServerStats s st
  | _ =>
      let st := console_error "Error loading server stats:" st in
      match document st !! "serverStats" with
      | Some _ =>
          set_document
            (<["serverStats" := unavailable_markup]> (document st)) st
      | None => st
      end
  end.

Section Browser.
Variable getTime : string → option Z.

Definition activeProfiles (now : nat → Z) (ps : list Profile) : N :=
  N.of_nat
    (length (filter_from (λ i p, recently_active getTime (now i) p) 0 ps)).

(** [updateOverviewStats()], where [now i] is what [Date.now()] returns
    when the callback runs on the element of index [i]. *)
Definition updateOverviewStats (now : nat → Z) (st : State) : State :=
  let totalProfiles := N.of_nat (length (profilesData st)) in
  let totalPosts := total statuses_count (profilesData st) in
  let totalFollowers := total followers_count (profilesData st) in
  let activeProfiles := activeProfiles now (profilesData st) in
  animate "activeProfiles" activeProfiles
    (animate "totalFollowers" totalFollowers
       (animate "totalPosts" totalPosts
          (animate "totalProfiles" totalProfiles st))).

(** The handler of [DOMContentLoaded]; the server statistics arrive
    after the rest has run. *)
Definition DOMContentLoaded (profiles : Fetched (list Profile))
    (server : Fetched ServerStats) (now : nat → Z) (st : State) : State :=
  loadServerStats server
    (renderTopProfiles (updateOverviewStats now (loadProfiles profiles st))).
End Browser.

End StatsPage.

(** ** Notions of the specification *)

(** [t] occurs in [s] as a contiguous substring. *)
Definition occurs (t s : string) : Prop := ∃ a b, s = a +:+ t +:+ b.

(** By the comparator [cmp], [a] may stand before [b]. *)
Definition before {A} (cmp : A → A → Z) (a b : A) : Prop :=
  (cmp a b ≤ 0)%Z.

(** The count of [a] (0 when missing) is at least that of [b]. *)
Definition at_least (count : Profile → option N) (a b : Profile) : Prop :=
  (or_num (count b) 0 ≤ or_num (count a) 0)%N.

(** Two states of the directory hold the same arrays in the same
    variables. *)
Definition same_arrays (st st' : App.State) : Prop :=
  App.heap st' = App.heap st ∧
  App.profilesData st' = App.profilesData st ∧
  App.filteredProfiles st' = App.filteredProfiles st.

(** The source array exists and is not the array of the filtered view. *)
Definition separate (st : App.State) : Prop :=
  App.profilesData st ≠ App.filteredProfiles st ∧
  is_Some (App.heap st !! App.profilesData st).

(** The name that the directory shows and sorts by:
    [display_name || username || '']. *)
Definition shown_name (p : Profile) : string :=
  or_str (display_name p) (or_str (username p) "").

(** A sample of the engine, for the concrete instances: what the methods
    give on text of ASCII code units, and the parser on markup that holds
    tags and text alone, without character references. *)
Module Plain.

Definition lower_char (c : ascii) : ascii :=
  let n := nat_of_ascii c in
  if (65 <=? n)%nat && (n <=? 90)%nat then ascii_of_nat (n + 32) else c.

Definition upper_char (c : ascii) : ascii :=
  let n := nat_of_ascii c in
  if (97 <=? n)%nat && (n <=? 122)%nat then ascii_of_nat (n - 32) else c.

Fixpoint map_chars (f : ascii → ascii) (s : string) : string :=
  match s with
  | EmptyString => EmptyString
  | String c r => String (f c) (map_chars f r)
  end.

Definition lower (s : string) : string := map_chars lower_char s.
Definition upper (s : string) : string := map_chars upper_char s.

Definition first (s : string) : string :=
  match s with
  | EmptyString => EmptyString
  | String c _ => String c EmptyString
  end.

(** TAB, LF, VT, FF, CR and the space. *)
Definition is_space (c : ascii) : bool :=
  let n := nat_of_ascii c in
  ((9 <=? n)%nat && (n <=? 13)%nat) || (n =? 32)%nat.

Fixpoint trimStart (s : string) : string :=
  match s with
  | EmptyString => EmptyString
  | String c r => if is_space c then trimStart r else s
  end.

Fixpoint trimEnd (s : string) : string :=
  match s with
  | EmptyString => EmptyString
  | String c r =>
      let r' := trimEnd r in
      if is_space c && String.eqb r' "" then EmptyString else String c r'
  end.

Definition trimmed (s : string) : string := trimEnd (trimStart s).

(** A [<] opens markup when a letter, [/], [!] or [?] follows it. *)
Definition opens_tag (r : string) : bool :=
  match r with
  | String c _ =>
      let n := nat_of_ascii c in
      is_alpha c || (n =? 47)%nat || (n =? 33)%nat || (n =? 63)%nat
  | EmptyString => false
  end.

(** What stands between a [<] that opens markup and the next [>] is
    dropped, everything else is text. *)
Fixpoint text (in_tag : bool) (html : string) : string :=
  match html with
  | EmptyString => EmptyString
  | String c r =>
      let n := nat_of_ascii c in
      if in_tag then text (negb (n =? 62)%nat) r
      else if (n =? 60)%nat && opens_tag r then text true r
      else String c (text false r)
  end.

Definition engine : Engine :=
  {| toLowerCase := lower; toUpperCase := upper; trim := trimmed;
     charAt0 := first; text_of_markup := text false |}.

End Plain.

(** A sample of the other parameters: [localeCompare] of the C locale
    (the order of the bytes), and the time values of two ISO dates. *)
Definition byte_order (a b : string) : Z :=
  match String.compare a b with
  | Lt => -1
  | Eq => 0
  | Gt => 1
  end.

Definition sample_dates (s : string) : option Z :=
  if String.eqb s "2024-03-01T00:00:00.000Z" then Some 1709251200000%Z
  else if String.eqb s "2024-01-01T00:00:00.000Z" then Some 1704067200000%Z
  else None.

(** Sample profiles. *)
Definition profile (u : string) (name bio : option string)
    (posts followers : option N) (last : option string) : Profile :=
  {| username := Some u; display_name := name; note := bio; avatar := None;
     statuses_count := posts; followers_count := followers;
     following_count := None; last_status_at := last; created_at := None;
     instance := None; acct := None |}.

Definition ana : Profile :=
  profile "ana" None (Some "<p>Salut <b>lume</b></p>") (Some 150%N)
    (Some 10%N) (Some "2024-03-01T00:00:00.000Z").

Definition bob : Profile :=
  profile "bob" (Some "Bob") None (Some 5%N) None
    (Some "2024-01-01T00:00:00.000Z").

Definition cici : Profile :=
  profile "cici" (Some "Cici C") (Some "poze") None (Some 70%N) None.

(** A page that has every element the scripts look up. *)
Definition page : gmap string string :=
  list_to_map
    [ ("profilesGrid", ""); ("searchInput", ""); ("sortSelect", "");
      ("resultsCount", ""); ("totalProfiles", ""); ("totalPosts", "");
      ("totalFollowers", ""); ("activeProfiles", "");
      ("topPosts", ""); ("topFollowers", ""); ("serverStats", "") ].

(** The directory once [ana], [bob] and [cici] are loaded, on 2024-03-01
    at about 13:33 UTC; the clock advances by a millisecond from one run
    of a callback to the next. *)
Definition sample_now (i : nat) : Z := 1709300000000 + Z.of_nat i.

Definition sample_directory : App.State :=
  App.DOMContentLoaded (Eng := Plain.engine) sample_dates
    (Loaded [ana; bob; cici]) sample_now (App.start page).

(** The filter as the specification words it: the lower-cased query
    occurs in the lower-cased display name, in the lower-cased username,
    or in the lower-cased biography stripped of its markup. *)
Definition spec_search_match {Eng : Engine} (q : string) (p : Profile)
    : bool :=
  let t := toLowerCase q in
  includes (toLowerCase (or_str (display_name p) "")) t
  || includes (toLowerCase (or_str (username p) "")) t
  || includes (toLowerCase (App.stripHtml (or_str (note p) ""))) t.

(** By [localeCompare] on the shown names, [a] may stand before [b]. *)
Definition name_order (localeCompare : string → string → Z)
    (a b : Profile) : Prop :=
  (localeCompare (shown_name a) (shown_name b) ≤ 0)%Z.

(** Thirty days, in milliseconds. *)
Definition thirty_days : Z := 30 * (1000 * 60 * 60 * 24).

(** The profile has a [last_status_at] whose time value is at most thirty
    days before [now]. *)
Definition active_within (getTime : string → option Z) (now : Z)
    (p : Profile) : Prop :=
  ∃ s t, last_status_at p = Some s ∧ s ≠ "" ∧ getTime s = Some t ∧
         (now - t ≤ thirty_days)%Z.

(** Some element of the page has been given a new content. *)
Definition content_replaced (before after : gmap string string) : Prop :=
  ∃ id text, after !! id = Some text ∧ before !! id ≠ Some text.

(** The statistics of a server, as they are fetched. *)
Definition sample_server : StatsPage.ServerStats :=
  {| StatsPage.version := Some "4.2.1";
     StatsPage.stats :=
       Some {| StatsPage.user_count := Some 1234%N;
               StatsPage.status_count := Some 56789%N;
               StatsPage.domain_count := None |};
     StatsPage.title := Some "social.5th.ro";
     StatsPage.short_description := None;
     StatsPage.other_keys := 3 |}.

(** [n] runs of the interval callback of a counter. *)
Definition ticks (n : nat) (t : Common.Timer) (doc : gmap string string)
    : Common.Timer * gmap string string :=
  Nat.iter n (λ s, Common.fire s.1 s.2) (t, doc).

(** ** Further notions, for the properties beyond the claims *)

From Stdlib Require DecimalFacts DecimalPos DecimalN DecimalZ.

(** A string of decimal digits. *)
Fixpoint all_digits (s : string) : bool :=
  match s with
  | EmptyString => true
  | String c r => is_digit c && all_digits r
  end.

(** A string with its commas taken out. *)
Fixpoint remove_commas (s : string) : string :=
  match s with
  | EmptyString => EmptyString
  | String c r =>
      if (nat_of_ascii c =? 44)%nat then remove_commas r
      else String c (remove_commas r)
  end.

(** The decimal digit of a number below ten, as a character, and the
    three digits of a number below a thousand. *)
Definition digit_char (n : N) : ascii := ascii_of_N (48 + n).

Definition three_digits (r : N) : string :=
  String (digit_char (r / 100))
    (String (digit_char (r / 10 mod 10))
       (String (digit_char (r mod 10)) EmptyString)).

(** The constructor of the decimal digit [n]. *)
Definition digit (n : N) : Decimal.uint → Decimal.uint :=
  match N.to_nat n with
  | 0 => Decimal.D0
  | 1 => Decimal.D1
  | 2 => Decimal.D2
  | 3 => Decimal.D3
  | 4 => Decimal.D4
  | 5 => Decimal.D5
  | 6 => Decimal.D6
  | 7 => Decimal.D7
  | 8 => Decimal.D8
  | _ => Decimal.D9
  end.

(** A fact about one decimal digit, checked on each of the ten. *)
Ltac by_digits n :=
  let k := fresh "k" in
  let E := fresh "E" in
  destruct (N.to_nat n) as [|[|[|[|[|[|[|[|[|[|k]]]]]]]]]] eqn:E;
  try lia; try (replace n with (N.of_nat (N.to_nat n)) by lia; rewrite E);
  try reflexivity.

(** The byte [c] stands somewhere in [s]. *)
Fixpoint mentions (c : ascii) (s : string) : bool :=
  match s with
  | EmptyString => false
  | String d r => Ascii.eqb c d || mentions c r
  end.

(** The state of the directory once the page is initialised and the
    events [es] have run. *)
Definition ready {Eng : Engine} (localeCompare : string → string → Z)
    (getTime : string → option Z) (doc : gmap string string)
    (response : Fetched (list Profile)) (now : nat → Z)
    (es : list App.Event) : App.State :=
  App.run localeCompare getTime es
    (App.DOMContentLoaded getTime response now (App.start doc)).

(** What [renderProfiles] writes into the grid for a list of profiles. *)
Definition grid_markup {Eng : Engine} (ps : list Profile) : string :=
  if (length ps =? 0)%nat then App.empty_markup
  else String.concat "" (map App.createProfileCard ps).

(** The grid, if the page has one, shows the filtered view. *)
Definition grid_shows_view {Eng : Engine} (st : App.State) : Prop :=
  ∀ text, App.document st !! "profilesGrid" = Some text →
          text = grid_markup (App.view st).

(** The results counter, if the page has one, shows the size of the
    filtered view. *)
Definition count_shows_view (st : App.State) : Prop :=
  ∀ text, App.document st !! "resultsCount" = Some text →
          text = toString (Z.of_nat (length (App.view st))).

(** The elements that the counters of [updateStats] write to. *)
Definition counter_ids : list string :=
  ["totalProfiles"; "totalPosts"; "totalFollowers"; "activeProfiles"].

Definition counters_only (st : App.State) : Prop :=
  Forall (λ t, Common.element t ∈ counter_ids) (App.timers st).

(** The time value by which [handleSort] orders by [recent], 0 standing
    for a date that is missing or invalid. *)
Definition created_time (getTime : string → option Z) (p : Profile) : Z :=
  default 0%Z (App.created getTime p).

(** Two profiles that carry a date of creation. *)
Definition dana : Profile :=
  {| username := Some "dana"; display_name := None; note := None;
     avatar := None; statuses_count := None; followers_count := None;
     following_count := None; last_status_at := None;
     created_at := Some "2024-01-01T00:00:00.000Z";
     instance := None; acct := None |}.

Definition emil : Profile :=
  {| username := Some "emil"; display_name := None; note := None;
     avatar := None; statuses_count := None; followers_count := None;
     following_count := None; last_status_at := None;
     created_at := Some "2024-03-01T00:00:00.000Z";
     instance := None; acct := None |}.

(** A record of server statistics with another short description. *)
Definition with_description (d : option string)
    (s : StatsPage.ServerStats) : StatsPage.ServerStats :=
  {| StatsPage.version := StatsPage.version s;
     StatsPage.stats := StatsPage.stats s;
     StatsPage.title := StatsPage.title s;
     StatsPage.short_description := d;
     StatsPage.other_keys := StatsPage.other_keys s |}.

(** Server statistics without a title. *)
Definition untitled_server : StatsPage.ServerStats :=
  {| StatsPage.version := Some "4.2.1";
     StatsPage.stats := None;
     StatsPage.title := None;
     StatsPage.short_description := Some "Un server";
     StatsPage.other_keys := 0 |}.

(** ** Properties of the built-ins *)

#[local] Arguments String.append !_ _ / : simpl nomatch.
#[local] Arguments Common.escapeHtml : simpl never.

Section Strings.

Lemma append_empty_r (s : string) : s +:+ "" = s.
Proof. induction s; simpl; congruence. Qed.

Lemma append_assoc (a b c : string) : (a +:+ b) +:+ c = a +:+ (b +:+ c).
Proof. induction a; simpl; congruence. Qed.

Lemma prefix_split (t s : string) :
  String.prefix t s = true ↔ ∃ b, s = t +:+ b.
Proof.
  revert s. induction t as [|c t IH]; intros s; simpl.
  - split; [intros _; by exists s | by destruct s].
  - destruct s as [|d s]; [split; [done | by intros [b Hb]]|].
    cbn [String.prefix]. destruct (ascii_dec c d) as [->|Hne].
    + rewrite IH. split; intros [b Hb]; exists b; simpl in *; congruence.
    + split; [done | intros [b Hb]; congruence].
Qed.

Lemma includes_occurs (s t : string) : includes s t = true ↔ occurs t s.
Proof.
  unfold occurs. induction s as [|c s IH].
  - cbn [includes]. rewrite orb_false_r, prefix_split. split.
    + intros [b Hb]. by exists "", b.
    + intros ([|? a] & b & Hab); [by exists b | done].
  - cbn [includes]. rewrite orb_true_iff, prefix_split, IH. split.
    + intros [[b Hb] | (a & b & Hab)].
      * by exists "", b.
      * exists (String c a), b. simpl. congruence.
    + intros ([|d a] & b & Hab).
      * left. by exists b.
      * right. exists a, b. simpl in Hab. congruence.
Qed.

Lemma includes_middle (a t b : string) : includes (a +:+ t +:+ b) t = true.
Proof. apply includes_occurs. by exists a, b. Qed.

End Strings.

(** ** The sort of arrays *)

Section SortFacts.
Context {A : Type} (cmp : A → A → Z).

Lemma sort_insert_perm (x : A) (l : list A) : sort_insert cmp x l ≡ₚ x :: l.
Proof.
  induction l as [|y l IH]; [done|].
  cbn. destruct (cmp x y <=? 0)%Z; [done|].
  rewrite IH. apply Permutation_swap.
Qed.

Lemma sort_perm (l : list A) : sort cmp l ≡ₚ l.
Proof.
  induction l as [|x l IH]; [done|].
  cbn. by rewrite sort_insert_perm, IH.
Qed.

Lemma sort_length (l : list A) : length (sort cmp l) = length l.
Proof. apply Permutation_length, sort_perm. Qed.

Hypothesis cmp_total : ∀ a b, (cmp a b ≤ 0 ∨ cmp b a ≤ 0)%Z.

Lemma sort_insert_hd (x y : A) (l : list A) :
  before cmp y x →
  HdRel (before cmp) y l →
  HdRel (before cmp) y (sort_insert cmp x l).
Proof.
  intros Hyx Hl. destruct l as [|z l]; cbn.
  - by constructor.
  - destruct (cmp x z <=? 0)%Z; constructor; [done|].
    by inversion Hl.
Qed.

Lemma sort_insert_sorted (x : A) (l : list A) :
  Sorted (before cmp) l → Sorted (before cmp) (sort_insert cmp x l).
Proof.
  induction 1 as [|y l Hs IH Hhd]; cbn.
  - by repeat constructor.
  - destruct (Z.leb_spec (cmp x y) 0) as [Hle|Hgt].
    + constructor; [by constructor | by constructor].
    + constructor; [exact IH|].
      apply sort_insert_hd; [|done].
      destruct (cmp_total x y) as [?|?]; [lia | done].
Qed.

Lemma sort_sorted (l : list A) : Sorted (before cmp) (sort cmp l).
Proof.
  induction l as [|x l IH]; cbn; [constructor|].
  by apply sort_insert_sorted.
Qed.

Hypothesis cmp_trans :
  ∀ a b c, (cmp a b ≤ 0 → cmp b c ≤ 0 → cmp a c ≤ 0)%Z.

Lemma sort_strongly_sorted (l : list A) :
  StronglySorted (before cmp) (sort cmp l).
Proof.
  apply Sorted.Sorted_StronglySorted; [|apply sort_sorted].
  intros a b c. apply cmp_trans.
Qed.

End SortFacts.

(** Sorting by a count, largest first. *)
Section Descending.
Context (count : Profile → option N).

Lemma descending_sorted (l : list Profile) :
  StronglySorted (at_least count) (sort (StatsPage.descending count) l).
Proof.
  eapply StronglySorted_ind with
    (P := λ l, StronglySorted (at_least count) l);
    [constructor | | apply (sort_strongly_sorted (StatsPage.descending count))].
  - intros a l' _ IH Hall. constructor; [done|].
    eapply Forall_impl; [exact Hall|].
    unfold StatsPage.descending, before, at_least. intros b. simpl. lia.
  - unfold StatsPage.descending. intros a b. lia.
  - unfold StatsPage.descending. intros a b c. lia.
Qed.

End Descending.

(** ** The arrays of the directory *)

Section Arrays.
Import Common App.
Context {Eng : Engine}.

Lemma alloc_fresh {A} (h : gmap loc A) (v : A) : h !! (alloc h v).1 = None.
Proof. apply not_elem_of_dom, is_fresh. Qed.

Lemma alloc_lookup {A} (h : gmap loc A) (v : A) :
  (alloc h v).2 !! (alloc h v).1 = Some v.
Proof. apply lookup_insert_eq. Qed.

Lemma alloc_other {A} (h : gmap loc A) (v : A) (l : loc) :
  is_Some (h !! l) → (alloc h v).1 ≠ l ∧ (alloc h v).2 !! l = h !! l.
Proof.
  intros Hl.
  assert ((alloc h v).1 ≠ l) as Hne.
  { intros <-. rewrite alloc_fresh in Hl. by destruct Hl. }
  split; [done|]. by apply lookup_insert_ne.
Qed.

Lemma same_arrays_refl (st : State) : same_arrays st st.
Proof. by repeat split. Qed.

Lemma same_arrays_trans (a b c : State) :
  same_arrays a b → same_arrays b c → same_arrays a c.
Proof.
  unfold same_arrays. intros (?&?&?) (?&?&?). repeat split; congruence.
Qed.

Lemma same_arrays_source (st st' : State) :
  same_arrays st st' → source st' = source st.
Proof. unfold source, array. by intros (-> & -> & _). Qed.

Lemma same_arrays_view (st st' : State) :
  same_arrays st st' → view st' = view st.
Proof. unfold view, array. by intros (-> & _ & ->). Qed.

Lemma same_arrays_separate (st st' : State) :
  same_arrays st st' → separate st → separate st'.
Proof. unfold separate. by intros (-> & -> & ->). Qed.

Lemma renderProfiles_arrays (st : State) : same_arrays st (renderProfiles st).
Proof.
  unfold renderProfiles. destruct (document st !! "profilesGrid"); [|done].
  by destruct (length (view st) =? 0)%nat.
Qed.

Lemma updateResultsCount_arrays (st : State) :
  same_arrays st (updateResultsCount st).
Proof.
  unfold updateResultsCount. by destruct (document st !! "resultsCount").
Qed.

Lemma showError_arrays (message : string) (st : State) :
  same_arrays st (showError message st).
Proof. unfold showError. by destruct (document st !! "profilesGrid"). Qed.

Lemma animate_arrays (id : string) (finish : N) (st : State) :
  same_arrays st (animate id finish st).
Proof. unfold animate. by destruct (animateValue _ _ _ _ _). Qed.

Lemma updateStats_arrays (getTime : string → option Z) (now : nat → Z)
    (st : State) :
  same_arrays st (updateStats getTime now st).
Proof.
  unfold updateStats.
  repeat (eapply same_arrays_trans; [|apply animate_arrays]).
  apply same_arrays_refl.
Qed.

(** What [loadProfiles] leaves in the two variables. *)
Lemma loadProfiles_loaded (json : list Profile) (st : State) :
  let st' := loadProfiles (Loaded json) st in
  separate st' ∧ source st' = json ∧ view st' = json.
Proof.
  unfold loadProfiles, separate, source, view, array.
  destruct (alloc (heap st) json) as [pd h1] eqn:E1.
  destruct (alloc h1 json) as [fp h2] eqn:E2. cbn.
  pose proof (alloc_lookup (heap st) json) as H1. rewrite E1 in H1. cbn in H1.
  pose proof (alloc_lookup h1 json) as H2. rewrite E2 in H2. cbn in H2.
  destruct (alloc_other h1 json pd) as [Hne Hpd]; [by rewrite H1|].
  rewrite E2 in Hne, Hpd. cbn in Hne, Hpd.
  rewrite Hpd, H1, H2. by repeat split.
Qed.

Lemma loadProfiles_error (r : Fetched (list Profile)) (st : State) :
  failed r = true →
  loadProfiles r st
  = showError error_message (console_error "Error loading profiles:" st).
Proof. by destruct r. Qed.

Lemma loadProfiles_failed (r : Fetched (list Profile)) (st : State) :
  failed r = true →
  same_arrays st (loadProfiles r st).
Proof.
  intros Hr. rewrite loadProfiles_error by done.
  eapply same_arrays_trans; [|apply showError_arrays]. by repeat split.
Qed.

Lemma start_separate (doc : gmap string string) :
  separate (start doc) ∧ source (start doc) = [] ∧ view (start doc) = [].
Proof. by repeat split. Qed.

(** A search replaces the filtered view by a fresh array. *)
Lemma handleSearch_arrays (value : string) (st : State) :
  separate st →
  let query := trim (toLowerCase value) in
  let st' := handleSearch value st in
  separate st' ∧ source st' = source st ∧
  view st' = if String.eqb query "" then source st
             else List.filter (search_match query) (source st).
Proof.
  intros [Hne Hpd] query. unfold handleSearch. fold query.
  set (found := if String.eqb query "" then _ else _).
  destruct (alloc (heap st) found) as [fp h] eqn:E.
  pose proof (alloc_lookup (heap st) found) as H1. rewrite E in H1. cbn in H1.
  destruct (alloc_other (heap st) found (profilesData st)) as [Hfp Hsrc];
    [done|].
  rewrite E in Hfp, Hsrc. cbn in Hfp, Hsrc.
  set (st1 := set_arrays h (profilesData st) fp st).
  assert (same_arrays st1 (renderProfiles (updateResultsCount st1))) as Hs.
  { eapply same_arrays_trans;
      [apply updateResultsCount_arrays | apply renderProfiles_arrays]. }
  cbn zeta.
  rewrite (same_arrays_source _ _ Hs), (same_arrays_view _ _ Hs).
  split; [|split].
  - apply (same_arrays_separate _ _ Hs). split; cbn; [done|].
    by rewrite Hsrc.
  - unfold source, array. cbn. by rewrite Hsrc.
  - unfold view, array. cbn. by rewrite H1.
Qed.

(** A sort rewrites the array of the filtered view, and no other. *)
Lemma handleSort_arrays (localeCompare : string → string → Z)
    (getTime : string → option Z) (sortBy : string) (st : State) :
  let st' := handleSort localeCompare getTime sortBy st in
  view st' = sort (comparator localeCompare getTime sortBy) (view st) ∧
  (separate st → separate st' ∧ source st' = source st).
Proof.
  unfold handleSort.
  set (st1 := set_arrays _ _ _ st).
  pose proof (renderProfiles_arrays st1) as Hs. cbn zeta.
  rewrite (same_arrays_source _ _ Hs), (same_arrays_view _ _ Hs).
  split.
  - unfold view at 1, array. cbn. by rewrite lookup_insert_eq.
  - intros [Hne Hpd]. split.
    + apply (same_arrays_separate _ _ Hs). split; cbn; [done|].
      by rewrite lookup_insert_ne.
    + unfold source, array. cbn. by rewrite lookup_insert_ne.
Qed.

End Arrays.

(** ** The states that the directory reaches *)

Section Reachable.
Import Common App.
Context {Eng : Engine}.
Variable localeCompare : string → string → Z.
Variable getTime : string → option Z.

Lemma DOMContentLoaded_arrays (r : Fetched (list Profile)) (now : nat → Z)
    (st : State) :
  same_arrays (loadProfiles r st) (DOMContentLoaded getTime r now st).
Proof.
  unfold DOMContentLoaded.
  eapply same_arrays_trans; [|apply renderProfiles_arrays].
  eapply same_arrays_trans; [|apply updateStats_arrays].
  by repeat split.
Qed.

Lemma DOMContentLoaded_loaded (json : list Profile) (now : nat → Z)
    (doc : gmap string string) :
  let st := DOMContentLoaded getTime (Loaded json) now (start doc) in
  separate st ∧ source st = json ∧ view st = json.
Proof.
  intros st.
  pose proof (DOMContentLoaded_arrays (Loaded json) now (start doc)) as Hs.
  destruct (loadProfiles_loaded json (start doc)) as (Hsep & Hsrc & Hview).
  split; [by apply (same_arrays_separate _ _ Hs)|].
  unfold st. by rewrite (same_arrays_source _ _ Hs), (same_arrays_view _ _ Hs).
Qed.

Lemma dispatch_source (st : State) (e : Event) :
  separate st →
  separate (dispatch localeCompare getTime st e) ∧
  source (dispatch localeCompare getTime st e) = source st.
Proof.
  intros Hsep. destruct e as [value|sortBy|i]; cbn.
  - destruct (on_input st); [|done].
    destruct (handleSearch_arrays value st Hsep) as (? & ? & _). done.
  - destruct (on_change st); [|done].
    by apply handleSort_arrays.
  - destruct (timers st !! i) as [t|]; [|done].
    by destruct (fire t (document st)).
Qed.

Lemma run_source (es : list Event) (st : State) :
  separate st →
  separate (run localeCompare getTime es st) ∧
  source (run localeCompare getTime es st) = source st.
Proof.
  revert st. induction es as [|e es IH]; intros st Hsep; [done|].
  change (run localeCompare getTime (e :: es) st)
    with (run localeCompare getTime es (dispatch localeCompare getTime st e)).
  destruct (dispatch_source st e Hsep) as [Hsep' Hsrc].
  destruct (IH _ Hsep') as [? ?]. split; [done | congruence].
Qed.

End Reachable.

(** ** Searching *)

Section Search.
Import Common App.
Context {Eng : Engine}.
Variable localeCompare : string → string → Z.
Variable getTime : string → option Z.

Lemma search_match_occurs (t : string) (p : Profile) :
  search_match t p = true ↔
    (truthy (display_name p) = true ∧
     occurs (toLowerCase t) (toLowerCase (or_str (display_name p) "")))
    ∨ occurs (toLowerCase t) (toLowerCase (or_str (username p) ""))
    ∨ occurs (toLowerCase t) (toLowerCase (or_str (note p) "")).
Proof.
  unfold search_match. rewrite !orb_true_iff, !includes_occurs.
  destruct (display_name p) as [d|]; cbn [or_str truthy].
  - destruct (String.eqb d ""); cbn [negb]; intuition congruence.
  - intuition congruence.
Qed.

(** C1, as the code has it.  For every engine, every loaded profile list,
    every run of events after the load and every input whose lower-cased,
    trimmed form [t] is not empty, [handleSearch] keeps, in the order of
    the source, exactly the profiles for which the search term, which is
    [t] lower-cased once more, occurs in the lower-cased [display_name]
    that the profile has, in the lower-cased [username], or in the
    lower-cased [note] as it is stored, markup included. *)
Theorem handleSearch_keeps_matches (doc : gmap string string)
    (json : list Profile) (now : nat → Z) (es : list Event) (value : string) :
  let t := trim (toLowerCase value) in
  let term := toLowerCase t in
  let st := run localeCompare getTime es
              (DOMContentLoaded getTime (Loaded json) now (start doc)) in
  t ≠ "" →
  view (handleSearch value st) = List.filter (search_match t) json ∧
  ∀ p, search_match t p = true ↔
         (truthy (display_name p) = true ∧
          occurs term (toLowerCase (or_str (display_name p) "")))
         ∨ occurs term (toLowerCase (or_str (username p) ""))
         ∨ occurs term (toLowerCase (or_str (note p) "")).
Proof.
  intros t term st Ht.
  destruct (DOMContentLoaded_loaded getTime json now doc) as (Hsep & Hsrc & _).
  destruct (run_source localeCompare getTime es _ Hsep) as [Hsep' Hsrc'].
  fold st in Hsep', Hsrc'.
  destruct (handleSearch_arrays value st Hsep') as (_ & _ & Hview).
  fold t in Hview. split.
  - rewrite Hview, Hsrc', Hsrc.
    destruct (String.eqb_spec t ""); [done | done].
  - intros p. apply search_match_occurs.
Qed.

(** C3.  For every engine, every loaded profile list and every run of
    events after the load, an input that the engine trims to nothing once
    it is lower-cased, which is the empty input and every input of white
    space alone, makes the filtered view the loaded list again: the same
    profiles in the same order. *)
Theorem blank_query_restores_source (doc : gmap string string)
    (json : list Profile) (now : nat → Z) (es : list Event) (value : string) :
  trim (toLowerCase value) = "" →
  view (handleSearch value
          (run localeCompare getTime es
             (DOMContentLoaded getTime (Loaded json) now (start doc))))
  = json.
Proof.
  intros Hblank.
  destruct (DOMContentLoaded_loaded getTime json now doc) as (Hsep & Hsrc & _).
  destruct (run_source localeCompare getTime es _ Hsep) as [Hsep' Hsrc'].
  destruct (handleSearch_arrays value _ Hsep') as (_ & _ & ->).
  rewrite Hblank. cbn. congruence.
Qed.

(** C7.  For every loaded profile list and every run of searches, sorts
    and counter ticks after the load, the array of [profilesData] still
    holds the loaded list, element by element and in the same order. *)
Theorem profilesData_never_changes (doc : gmap string string)
    (json : list Profile) (now : nat → Z) (es : list Event) :
  source (run localeCompare getTime es
            (DOMContentLoaded getTime (Loaded json) now (start doc)))
  = json.
Proof.
  destruct (DOMContentLoaded_loaded getTime json now doc) as (Hsep & Hsrc & _).
  destruct (run_source localeCompare getTime es _ Hsep) as [_ Hsrc'].
  congruence.
Qed.

End Search.

(** The concrete instances run on the sample engine. *)
Section SearchSamples.
Existing Instance Plain.engine.

Lemma handleSearch_keeps_matches_witness :
  trim (toLowerCase " C ") ≠ "" ∧
  App.view
    (App.handleSearch " C "
       (App.run byte_order sample_dates [App.Change "followers"; App.Interval 0]
          (App.DOMContentLoaded sample_dates (Loaded [ana; bob; cici])
             sample_now (App.start page))))
  = List.filter (App.search_match "c") [ana; bob; cici].
Proof.
  assert (trim (toLowerCase " C ") ≠ "") as H by (by vm_compute).
  split; [exact H|].
  exact (proj1 (handleSearch_keeps_matches byte_order sample_dates page
                  [ana; bob; cici] sample_now
                  [App.Change "followers"; App.Interval 0] " C " H)).
Defined.

(** C1 as the specification words it fails twice.  The query [<b>] keeps
    [ana], whose stored note holds that tag, although her biography
    without markup does not hold it; and the query of one space, which is
    not empty, keeps [bob], in whose fields no space occurs. *)
Lemma handleSearch_not_specification :
  App.view (App.handleSearch "<b>" sample_directory)
    ≠ List.filter (spec_search_match "<b>") (App.source sample_directory)
  ∧ App.view (App.handleSearch " " sample_directory)
    ≠ List.filter (spec_search_match " ") (App.source sample_directory).
Proof. split; by vm_compute. Qed.

Lemma blank_query_restores_source_witness :
  trim (toLowerCase "  ") = "" ∧
  App.view
    (App.handleSearch "  "
       (App.run byte_order sample_dates
          [App.Input "ana"; App.Change "followers"; App.Interval 0]
          (App.DOMContentLoaded sample_dates (Loaded [ana; bob; cici])
             sample_now (App.start page))))
  = [ana; bob; cici].
Proof.
  split; [reflexivity|].
  apply (blank_query_restores_source byte_order sample_dates page
           [ana; bob; cici] sample_now
           [App.Input "ana"; App.Change "followers"; App.Interval 0] "  ").
  reflexivity.
Defined.

End SearchSamples.

(** ** Sorting *)

Section Sorting.
Import Common App.
Context {Eng : Engine}.
Variable localeCompare : string → string → Z.
Variable getTime : string → option Z.

Lemma comparator_followers :
  comparator localeCompare getTime "followers"
  = StatsPage.descending followers_count.
Proof. reflexivity. Qed.

Lemma comparator_posts :
  comparator localeCompare getTime "posts"
  = StatsPage.descending statuses_count.
Proof. reflexivity. Qed.

Lemma comparator_name :
  comparator localeCompare getTime "name"
  = λ a b, localeCompare (shown_name a) (shown_name b).
Proof. reflexivity. Qed.

(** Whatever the key, the filtered view is permuted. *)
Lemma handleSort_permutes (sortBy : string) (st : State) :
  view (handleSort localeCompare getTime sortBy st) ≡ₚ view st.
Proof.
  destruct (handleSort_arrays localeCompare getTime sortBy st) as [-> _].
  apply sort_perm.
Qed.

Lemma handleSort_followers (st : State) :
  StronglySorted (at_least followers_count)
    (view (handleSort localeCompare getTime "followers" st)).
Proof.
  destruct (handleSort_arrays localeCompare getTime "followers" st) as [-> _].
  rewrite comparator_followers. apply descending_sorted.
Qed.

Lemma handleSort_posts (st : State) :
  StronglySorted (at_least statuses_count)
    (view (handleSort localeCompare getTime "posts" st)).
Proof.
  destruct (handleSort_arrays localeCompare getTime "posts" st) as [-> _].
  rewrite comparator_posts. apply descending_sorted.
Qed.

Hypothesis localeCompare_total :
  ∀ a b, (localeCompare a b ≤ 0 ∨ localeCompare b a ≤ 0)%Z.

Lemma handleSort_name (st : State) :
  Sorted (name_order localeCompare)
    (view (handleSort localeCompare getTime "name" st)).
Proof.
  destruct (handleSort_arrays localeCompare getTime "name" st) as [-> _].
  rewrite comparator_name.
  apply (sort_sorted (λ a b, localeCompare (shown_name a) (shown_name b))).
  intros a b. apply localeCompare_total.
Qed.

(** C4.  Whatever the filtered view holds, sorting it by [followers]
    yields a permutation in which every profile has at least as many
    followers (0 when the count is missing) as all that come after it,
    and sorting it by [name] yields a permutation in which each profile
    may stand before the next by [localeCompare] on the shown names.  The
    comparison of the locale is taken to be total. *)
Theorem handleSort_orders (st : State) :
  let by_followers := view (handleSort localeCompare getTime "followers" st) in
  let by_name := view (handleSort localeCompare getTime "name" st) in
  (by_followers ≡ₚ view st ∧
   StronglySorted (at_least followers_count) by_followers) ∧
  (by_name ≡ₚ view st ∧ Sorted (name_order localeCompare) by_name).
Proof.
  repeat split.
  - apply handleSort_permutes.
  - apply handleSort_followers.
  - apply handleSort_permutes.
  - apply handleSort_name.
Qed.

End Sorting.

Lemma byte_order_total (a b : string) :
  (byte_order a b ≤ 0 ∨ byte_order b a ≤ 0)%Z.
Proof.
  unfold byte_order. rewrite (String.compare_antisym a b).
  destruct (String.compare b a); cbn; lia.
Qed.

Section SortingSamples.
Existing Instance Plain.engine.

Lemma handleSort_orders_witness :
  (∀ a b, (byte_order a b ≤ 0 ∨ byte_order b a ≤ 0)%Z) ∧
  map username
    (App.view (App.handleSort byte_order sample_dates "followers"
                 sample_directory))
  = [Some "cici"; Some "ana"; Some "bob"] ∧
  Sorted (name_order byte_order)
    (App.view (App.handleSort byte_order sample_dates "name"
                 sample_directory)).
Proof.
  split; [exact byte_order_total|].
  split; [reflexivity|].
  apply (handleSort_orders byte_order sample_dates byte_order_total
           sample_directory).
Defined.

End SortingSamples.

(** ** The top lists of the statistics page *)

Section TopLists.
Import StatsPage.
Context (count : Profile → option N).

Lemma top_length (ps : list Profile) : length (top count ps) ≤ 10.
Proof. unfold top, slice0. rewrite length_take. lia. Qed.

Lemma top_sorted (ps : list Profile) :
  StronglySorted (at_least count) (top count ps).
Proof.
  unfold top, slice0.
  pose proof (descending_sorted count ps) as H.
  rewrite <- (take_drop 10 (sort (descending count) ps)) in H.
  by apply StronglySorted_app_1_l in H.
Qed.

Lemma top_dominates (ps : list Profile) :
  let rest := drop 10 (sort (descending count) ps) in
  top count ps ++ rest ≡ₚ ps ∧
  ∀ a b, a ∈ top count ps → b ∈ rest → at_least count a b.
Proof.
  intros rest. unfold top, slice0, rest. split.
  - rewrite take_drop. apply sort_perm.
  - intros a b Ha Hb.
    pose proof (descending_sorted count ps) as H.
    rewrite <- (take_drop 10 (sort (descending count) ps)) in H.
    by apply (StronglySorted_app_1_elem_of _ _ _ _ _ H).
Qed.

End TopLists.

(** C8.  For every profile list, each of the two top lists holds at most
    ten profiles, every profile of a list has at least the count (0 when
    missing) of all that come after it, and the list together with the
    profiles left out is the whole list, every one of those left out
    having at most the count of every one in the list. *)
Theorem top_lists_are_the_largest (ps : list Profile) :
  let posts := StatsPage.topPosts ps in
  let followers := StatsPage.topFollowers ps in
  (length posts ≤ 10 ∧
   StronglySorted (at_least statuses_count) posts ∧
   ∃ rest, posts ++ rest ≡ₚ ps ∧
           ∀ a b, a ∈ posts → b ∈ rest → at_least statuses_count a b) ∧
  (length followers ≤ 10 ∧
   StronglySorted (at_least followers_count) followers ∧
   ∃ rest, followers ++ rest ≡ₚ ps ∧
           ∀ a b, a ∈ followers → b ∈ rest → at_least followers_count a b).
Proof.
  split; (split; [apply top_length | split; [apply top_sorted|]]);
    eexists; apply top_dominates.
Qed.

(** ** The active profiles *)

Section Active.
Import Common.
Variable getTime : string → option Z.

Lemma days_since_le (d : Z) :
  Qle_bool (inject_Z d / inject_Z (1000 * 60 * 60 * 24)) 30 = true
  ↔ (d ≤ thirty_days)%Z.
Proof.
  rewrite Qle_bool_iff. unfold thirty_days.
  change (1000 * 60 * 60 * 24)%Z with 86400000%Z.
  unfold Qle, Qdiv, Qmult, Qinv, inject_Z. cbn [Qnum Qden]. lia.
Qed.

Lemma truthy_some (o : option string) :
  truthy o = true ↔ ∃ s, o = Some s ∧ s ≠ "".
Proof.
  destruct o as [s|]; cbn.
  - destruct (String.eqb_spec s ""); cbn; split; try done.
    + by intros (? & [= <-] & ?).
    + intros _. by exists s.
  - split; [done | by intros (? & ? & _)].
Qed.

Lemma recently_active_iff (now : Z) (p : Profile) :
  recently_active getTime now p = true ↔ active_within getTime now p.
Proof.
  unfold recently_active, active_within.
  destruct (truthy (last_status_at p)) eqn:Ht.
  - apply truthy_some in Ht as (s & Hs & Hne). rewrite Hs. cbn.
    destruct (String.eqb_spec s ""); [done|].
    destruct (getTime s) as [t|] eqn:Hg.
    + rewrite days_since_le. split.
      * intros H. by exists s, t.
      * intros (s' & t' & [= <-] & _ & Hg' & H). congruence.
    + split; [done|]. intros (s' & t' & [= <-] & _ & Hg' & _). congruence.
  - split; [done|]. intros (s & t & Hs & Hne & _).
    assert (truthy (last_status_at p) = true) as Ht'
      by (apply truthy_some; by exists s).
    congruence.
Qed.

Lemma filter_from_elem_of {A} (f : nat → A → bool) (i : nat) (l : list A)
    (x : A) :
  x ∈ filter_from f i l ↔ ∃ k, l !! k = Some x ∧ f (i + k) x = true.
Proof.
  revert i. induction l as [|y l IH]; intros i; cbn.
  - split; [by intros ?%elem_of_nil | by intros (k & ? & _)].
  - assert (x ∈ filter_from f (S i) l ↔
            ∃ k, (y :: l) !! S k = Some x ∧ f (i + S k) x = true) as IH'.
    { rewrite IH. by setoid_rewrite Nat.add_succ_r. }
    destruct (f i y) eqn:Hf.
    + rewrite elem_of_cons, IH'. split.
      * intros [-> | (k & ? & ?)]; [exists 0 | by exists (S k)].
        by rewrite Nat.add_0_r.
      * intros ([|k] & Hk & Hfk); [left | right; by exists k].
        by injection Hk.
    + rewrite IH'. split.
      * intros (k & ? & ?). by exists (S k).
      * intros ([|k] & Hk & Hfk); [|by exists k].
        injection Hk as <-. rewrite Nat.add_0_r in Hfk. congruence.
Qed.

Lemma filter_from_sublist {A} (f : nat → A → bool) (i : nat) (l : list A) :
  filter_from f i l `sublist_of` l.
Proof.
  revert i. induction l as [|y l IH]; intros i; cbn; [done|].
  destruct (f i y); [by apply sublist_skip | by apply sublist_cons].
Qed.

(** C10.  On both pages the statistic is the number of profiles that the
    callback keeps; the callback keeps a profile exactly when it has a
    [last_status_at] whose time value is at most thirty days, in
    milliseconds, before the clock read in that run of the callback; a
    profile without [last_status_at] is never kept. *)
Theorem activeProfiles_counts_recent (now : nat → Z) (ps : list Profile) :
  let kept := filter_from (λ i p, recently_active getTime (now i) p) 0 ps in
  App.activeProfiles getTime now ps = N.of_nat (length kept) ∧
  StatsPage.activeProfiles getTime now ps = N.of_nat (length kept) ∧
  kept `sublist_of` ps ∧
  (∀ p, p ∈ kept ↔
        ∃ i, ps !! i = Some p ∧ active_within getTime (now i) p) ∧
  (∀ t p, recently_active getTime t p = true ↔ active_within getTime t p) ∧
  (∀ t p, last_status_at p = None → recently_active getTime t p = false).
Proof.
  intros kept. split; [done|]. split; [done|].
  split; [apply filter_from_sublist|]. split; [|split].
  - intros p. unfold kept. rewrite filter_from_elem_of.
    by setoid_rewrite recently_active_iff.
  - apply recently_active_iff.
  - intros t p Hp. unfold recently_active. by rewrite Hp.
Qed.

End Active.

(** ** The card of a profile *)

Section Card.
Import Common App.
Context {Eng : Engine}.










End Card.

Section CardSamples.
Existing Instance Plain.engine.


End CardSamples.

(** ** A failed load of the directory *)

Section FailedLoad.
Import Common App.
Context {Eng : Engine}.
Variable getTime : string → option Z.

Lemma animate_document (id : string) (finish : N) (st : State) :
  document (animate id finish st) = document st.
Proof. unfold animate. by destruct (animateValue _ _ _ _ _). Qed.

Lemma updateStats_document (now : nat → Z) (st : State) :
  document (updateStats getTime now st) = document st.
Proof. unfold updateStats. by rewrite !animate_document. Qed.

(** [loadProfiles] shows the error in the grid ... *)
Lemma loadProfiles_shows_error (r : Fetched (list Profile)) (st : State) :
  failed r = true →
  is_Some (document st !! "profilesGrid") →
  document (loadProfiles r st) !! "profilesGrid"
  = Some (error_markup error_message) ∧
  console (loadProfiles r st) = console st ++ ["Error loading profiles:"].
Proof.
  intros Hr [x Hx]. rewrite loadProfiles_error by done.
  unfold showError. cbn [document console_error]. rewrite Hx.
  split; [apply lookup_insert_eq | reflexivity].
Qed.

(** ... and [renderProfiles], which runs next on the empty view, replaces
    it by the notice that no profile matches. *)
Lemma failed_load_renders_no_results (r : Fetched (list Profile))
    (now : nat → Z) (doc : gmap string string) :
  failed r = true →
  is_Some (doc !! "profilesGrid") →
  document (DOMContentLoaded getTime r now (start doc)) !! "profilesGrid"
  = Some empty_markup.
Proof.
  intros Hr Hgrid. unfold DOMContentLoaded.
  set (st := updateStats getTime now
               (setupSearch (loadProfiles r (start doc)))).
  assert (view st = []) as Hview.
  { unfold st.
    rewrite (same_arrays_view _ _ (updateStats_arrays getTime now _)).
    change (view (setupSearch ?s)) with (view s).
    by rewrite (same_arrays_view _ _ (loadProfiles_failed r _ Hr)). }
  assert (is_Some (document st !! "profilesGrid")) as [x Hx].
  { unfold st. rewrite updateStats_document.
    change (document (setupSearch ?s)) with (document s).
    destruct (loadProfiles_shows_error r (start doc) Hr Hgrid) as [-> _].
    by eexists. }
  unfold renderProfiles. rewrite Hx, Hview. cbn. by rewrite lookup_insert_eq.
Qed.

(** C2 on the code: when [/data/profiles.json] answers 404, the grid
    holds the error for as long as [loadProfiles] runs, and once the page
    is initialised it holds the notice that no profile matches the
    search, in which the error does not occur.  No card is rendered. *)
Theorem failed_load_error_is_overwritten (now : nat → Z) :
  let loaded := loadProfiles (HttpError 404) (start page) in
  let ready := DOMContentLoaded getTime (HttpError 404) now (start page) in
  document loaded !! "profilesGrid" = Some (error_markup error_message) ∧
  document ready !! "profilesGrid" = Some empty_markup ∧
  includes empty_markup (escapeHtml error_message) = false ∧
  includes empty_markup "profile-card" = false.
Proof.
  split; [by vm_compute|]. split; [|split; by vm_compute].
  apply failed_load_renders_no_results; [done | by exists ""].
Qed.

End FailedLoad.

(** ** Failed fetches on the statistics page *)

Section StatsFailures.
Import Common StatsPage.

(** On the statistics page a failure of either fetch is caught and
    logged.  When it is the fetch of the server statistics, the element
    [serverStats], if the page has it, is given the notice that the
    statistics are not available, and nothing else changes.  When it is
    the fetch of the profiles, nothing is shown: the page and the profile
    list stay as they were. *)
Lemma stats_page_failures (rp : Fetched (list Profile))
    (rs : Fetched ServerStats) (st : State) :
  failed rp = true →
  failed rs = true →
  (console (loadProfiles rp st) = console st ++ ["Error loading profiles:"] ∧
   document (loadProfiles rp st) = document st ∧
   profilesData (loadProfiles rp st) = profilesData st) ∧
  (console (loadServerStats rs st)
   = console st ++ ["Error loading server stats:"] ∧
   document (loadServerStats rs st)
   = (if bool_decide (is_Some (document st !! "serverStats"))
      then <["serverStats" := unavailable_markup]> (document st)
      else document st) ∧
   profilesData (loadServerStats rs st) = profilesData st).
Proof.
  intros Hp Hs. split.
  - by destruct rp.
  - destruct rs; [| | |done];
      unfold loadServerStats, set_document, console_error;
      cbn [document console profilesData];
      by destruct (document st !! "serverStats").
Qed.

End StatsFailures.

(** C6 on the code: when [/data/profiles.json] answers 404 on the
    statistics page, the load is logged and replaces the content of no
    element; and when the page is ready, the server statistics having
    arrived, the two top lists are empty and no element holds a notice of
    failure.  The two sibling handlers do show one on the same answer:
    [loadProfiles] of the directory writes its error into the grid, and
    [loadServerStats] of the statistics page writes its notice into
    [serverStats]. *)
Theorem stats_page_profiles_failure_is_silent :
  let loaded :=
    StatsPage.loadProfiles (HttpError 404) (StatsPage.start page) in
  let ready :=
    StatsPage.DOMContentLoaded sample_dates (HttpError 404)
      (Loaded sample_server) sample_now (StatsPage.start page) in
  (StatsPage.console loaded = ["Error loading profiles:"] ∧
   ¬ content_replaced page (StatsPage.document loaded)) ∧
  (StatsPage.document ready !! "topPosts" = Some "" ∧
   StatsPage.document ready !! "topFollowers" = Some "" ∧
   map_Forall
     (λ _ text, includes text "Nu s-au putut" = false ∧
                includes text "nu sunt disponibile" = false)
     (StatsPage.document ready)) ∧
  (App.document (App.loadProfiles (HttpError 404) (App.start page))
   !! "profilesGrid" = Some (App.error_markup App.error_message) ∧
   StatsPage.document
     (StatsPage.loadServerStats (HttpError 404) (StatsPage.start page))
   !! "serverStats" = Some StatsPage.unavailable_markup).
Proof.
  split; [|split].
  - split; [reflexivity|].
    intros (id & text & Hafter & Hbefore). by cbn in Hafter.
  - split; [by vm_compute|]. split; [by vm_compute|].
    refine (bool_decide_unpack _ _). by vm_compute.
  - split; by vm_compute.
Qed.

(** ** The counter animation *)

Section Animation.
Import Common.

(** A counter whose increment is 0 is never stopped by its callback. *)
Lemma tick_idle (t : Timer) (doc : gmap string string) :
  Qnum (increment t) = 0%Z →
  Qnum (current t) = 0%Z →
  ticking (tick t doc).1 = ticking t ∧
  Qnum (current (tick t doc).1) = 0%Z ∧
  increment (tick t doc).1 = increment t ∧
  element (tick t doc).1 = element t ∧
  (tick t doc).2 = <[element t := "0"]> doc.
Proof.
  destruct t as [id fin [ni di] [nc dc] run]. cbn [increment current Qnum].
  intros -> ->.
  unfold tick, Qlt_bool, Qle_bool.
  cbn [increment current finish element ticking Qnum Qden Qplus fst snd].
  rewrite !Z.mul_0_l. change (0 <=? 0)%Z with true.
  cbn [negb andb orb]. rewrite andb_true_r.
  by repeat split.
Qed.

Lemma ticks_S (n : nat) (t : Timer) (doc : gmap string string) :
  ticks (S n) t doc = fire (ticks n t doc).1 (ticks n t doc).2.
Proof. reflexivity. Qed.

Lemma ticks_idle (n : nat) (t : Timer) (doc : gmap string string) :
  ticking t = true →
  Qnum (increment t) = 0%Z →
  Qnum (current t) = 0%Z →
  ticking (ticks n t doc).1 = true ∧
  Qnum (current (ticks n t doc).1) = 0%Z ∧
  increment (ticks n t doc).1 = increment t ∧
  element (ticks n t doc).1 = element t.
Proof.
  intros Hrun Hinc Hcur. induction n as [|n (IH1 & IH2 & IH3 & IH4)]; [done|].
  rewrite ticks_S. unfold fire. rewrite IH1.
  destruct (tick_idle (ticks n t doc).1 (ticks n t doc).2)
    as (H1 & H2 & H3 & H4 & _); [congruence | done |].
  repeat split; congruence.
Qed.

Lemma Qlt_bool_iff (a b : Q) : Qlt_bool a b = true ↔ (a < b)%Q.
Proof.
  unfold Qlt_bool. rewrite negb_true_iff, <- not_true_iff_false, Qle_bool_iff.
  split; [apply Qnot_le_lt | apply Qlt_not_le].
Qed.

Lemma tick_rising (t : Timer) (doc : gmap string string) (N : Z) (k : nat) :
  (0 < N)%Z →
  finish t = inject_Z N →
  (increment t == inject_Z N * (16 # 1000))%Q →
  (current t == inject_Z (Z.of_nat k) * increment t)%Q →
  let t' := (tick t doc).1 in
  finish t' = finish t ∧ increment t' = increment t ∧
  element t' = element t ∧
  (S k < 63 →
   ticking t' = ticking t ∧
   (current t' == inject_Z (Z.of_nat (S k)) * increment t)%Q) ∧
  (63 ≤ S k → ticking t' = false ∧ current t' = finish t) ∧
  (tick t doc).2
  = <[element t := formatNumber (Math_floor (current t'))]> doc ∧
  (Math_floor (current t') ≤ N)%Z.
Proof.
  intros HN Hfin Hinc Hcur.
  set (c := (current t + increment t)%Q).
  assert (c == inject_Z (Z.of_nat (S k)) * increment t)%Q as Hc.
  { unfold c. rewrite Hcur, Nat2Z.inj_succ, <- Z.add_1_r, inject_Z_plus. ring. }
  assert (Qlt_bool 0 (increment t) = true) as Hpos.
  { apply Qlt_bool_iff. rewrite Hinc. unfold Qlt, Qmult, inject_Z.
    cbn [Qnum Qden]. lia. }
  assert (Qlt_bool (increment t) 0 = false) as Hneg.
  { apply not_true_iff_false. rewrite Qlt_bool_iff. apply Qle_not_lt.
    apply Qlt_le_weak. by apply Qlt_bool_iff. }
  assert (Qle_bool (finish t) c = true ↔ 63 ≤ S k) as Hstop.
  { rewrite Qle_bool_iff, Hc, Hfin, Hinc. unfold Qle, Qmult, inject_Z.
    cbn [Qnum Qden]. split; intros H; nia. }
  unfold tick. fold c. rewrite Hpos, Hneg. cbn [andb orb fst snd].
  rewrite orb_false_r.
  cbn [finish increment element ticking current].
  destruct (Qle_bool (finish t) c) eqn:E.
  - apply proj1 in Hstop. specialize (Hstop eq_refl).
    repeat split; try done; try lia; try apply andb_false_r.
    rewrite Hfin. unfold Math_floor. by rewrite Qfloor_Z.
  - assert (¬ 63 ≤ S k) as Hk by (intros H; apply Hstop in H; congruence).
    repeat split; try done; try lia; try apply andb_true_r.
    unfold Math_floor. apply not_true_iff_false in E.
    rewrite Qle_bool_iff in E. apply Qnot_le_lt in E.
    rewrite Hfin in E.
    rewrite <- (Qfloor_Z N). apply Qfloor_resp_le. by apply Qlt_le_weak.
Qed.

Lemma ticks_rising (t : Timer) (doc : gmap string string) (N : Z) (k : nat) :
  (0 < N)%Z →
  ticking t = true →
  finish t = inject_Z N →
  (increment t == inject_Z N * (16 # 1000))%Q →
  (current t == 0)%Q →
  k < 63 →
  ticking (ticks k t doc).1 = true ∧
  finish (ticks k t doc).1 = finish t ∧
  increment (ticks k t doc).1 = increment t ∧
  element (ticks k t doc).1 = element t ∧
  (current (ticks k t doc).1 == inject_Z (Z.of_nat k) * increment t)%Q.
Proof.
  intros HN Hrun Hfin Hinc Hcur. induction k as [|k IH]; intros Hk.
  - repeat split; try done; try (rewrite Hcur; cbn; ring).
  - destruct IH as (I1 & I2 & I3 & I4 & I5); [lia|].
    rewrite ticks_S. unfold fire. rewrite I1.
    destruct (tick_rising (ticks k t doc).1 (ticks k t doc).2 N k)
      as (T1 & T2 & T3 & T4 & _);
      [done | congruence | by rewrite I3 | by rewrite I3 |].
    destruct (T4 Hk) as [T5 T6].
    repeat split; try congruence; try (by rewrite T6, I3).
Qed.

(** Once stopped, a counter stays as it is. *)
Lemma ticks_stopped (t : Timer) (doc : gmap string string) (k : nat) :
  ticking t = false → ticks k t doc = (t, doc).
Proof.
  intros Hrun. induction k as [|k IH]; [done|].
  rewrite ticks_S, IH. unfold fire. cbn. by rewrite Hrun.
Qed.

Lemma ticks_add (j k : nat) (t : Timer) (doc : gmap string string) :
  ticks (j + k) t doc = ticks j (ticks k t doc).1 (ticks k t doc).2.
Proof.
  unfold ticks. rewrite Nat.iter_add. by destruct (Nat.iter k _ _).
Qed.

Lemma ticks_after_stop (j k : nat) (t : Timer) (doc : gmap string string) :
  ticking (ticks k t doc).1 = false →
  ticks (j + k) t doc = ticks k t doc.
Proof.
  intros H. rewrite ticks_add, (ticks_stopped _ _ _ H).
  by destruct (ticks k t doc).
Qed.

(** A counter that rises from 0 to a positive integer in steps of 16
    thousandths of it runs for 62 ticks below its target and is stopped
    on the target by the 63rd. *)
Lemma rising_counter_stops (t : Timer) (doc : gmap string string)
    (id : string) (N : Z) :
  (0 < N)%Z →
  element t = id →
  ticking t = true →
  finish t = inject_Z N →
  (increment t == inject_Z N * (16 # 1000))%Q →
  (current t == 0)%Q →
  (∀ k, k < 63 → ticking (ticks k t doc).1 = true) ∧
  (∀ k, 63 ≤ k →
        ticking (ticks k t doc).1 = false ∧
        (ticks k t doc).2 !! id = Some (formatNumber N)) ∧
  (∀ k, 1 ≤ k →
        ∃ z, (ticks k t doc).2 !! id = Some (formatNumber z) ∧ (z ≤ N)%Z).
Proof.
  intros HN Hid Hrun Hfin Hinc Hcur.
  pose proof (λ k, ticks_rising t doc N k HN Hrun Hfin Hinc Hcur) as Hrise.
  assert (∀ k, k < 63 →
            (ticks (S k) t doc).2 !! id
            = Some (formatNumber (Math_floor (current (ticks (S k) t doc).1)))
            ∧ (Math_floor (current (ticks (S k) t doc).1) ≤ N)%Z ∧
            (63 ≤ S k →
             ticking (ticks (S k) t doc).1 = false ∧
             current (ticks (S k) t doc).1 = inject_Z N)) as Hstep.
  { intros k Hk. destruct (Hrise k Hk) as (I1 & I2 & I3 & I4 & I5).
    rewrite ticks_S. unfold fire. rewrite I1.
    destruct (tick_rising (ticks k t doc).1 (ticks k t doc).2 N k)
      as (T1 & T2 & T3 & T4 & T5 & T6 & T7);
      [exact HN | by rewrite I2 | by rewrite I3 | by rewrite I3 |].
    rewrite T6, I4, Hid, lookup_insert_eq.
    split; [reflexivity|]. split; [exact T7|].
    intros H. destruct (T5 H) as [-> ->]. split; [reflexivity|].
    rewrite I2. exact Hfin. }
  assert (ticking (ticks 63 t doc).1 = false ∧
          (ticks 63 t doc).2 !! id = Some (formatNumber N)) as [H1 H2].
  { destruct (Hstep 62) as (S2 & _ & S4); [lia|].
    destruct S4 as [S4 S5]; [lia|].
    split; [exact S4|]. rewrite S2, S5.
    unfold Math_floor. rewrite Qfloor_Z. reflexivity. }
  split; [|split].
  - intros k Hk. destruct (Hrise k Hk) as [H _]. exact H.
  - intros k Hk. replace k with ((k - 63) + 63) by lia.
    rewrite (ticks_after_stop _ _ _ _ H1). split; [exact H1 | exact H2].
  - intros k Hk. destruct (decide (k ≤ 63)) as [Hle|Hgt].
    + destruct k as [|k]; [lia|].
      destruct (Hstep k) as (S2 & S3 & _); [lia|].
      eexists. split; [exact S2 | exact S3].
    + replace k with ((k - 63) + 63) by lia.
      rewrite (ticks_after_stop _ _ _ _ H1).
      exists N. split; [exact H2 | lia].
Qed.

Lemma animateValue_positive_stops (doc : gmap string string) (id : string)
    (N : Z) :
  (0 < N)%Z →
  is_Some (doc !! id) →
  ∃ t, animateValue doc id 0 (inject_Z N) 1000 = Some t ∧
       (∀ k, k < 63 → ticking (ticks k t doc).1 = true) ∧
       (∀ k, 63 ≤ k →
             ticking (ticks k t doc).1 = false ∧
             (ticks k t doc).2 !! id = Some (formatNumber N)) ∧
       (∀ k, 1 ≤ k →
             ∃ z, (ticks k t doc).2 !! id = Some (formatNumber z) ∧
                  (z ≤ N)%Z).
Proof.
  intros HN [x Hx]. unfold animateValue. rewrite Hx. eexists.
  split; [reflexivity|].
  apply rising_counter_stops; [exact HN | reflexivity.. | | reflexivity].
  cbn [increment].
  assert (1000 / 16 == 1000 # 16)%Q as -> by reflexivity.
  assert ((16 # 1000) == / (1000 # 16))%Q as -> by reflexivity.
  unfold Qdiv, Qminus. by rewrite Qplus_0_r.
Qed.

(** C5 on the code: a counter animated to 0 shows 0 at every tick and is
    never stopped, however many ticks have run. *)
Theorem animateValue_to_zero_never_stops (n : nat) :
  ∃ t, animateValue page "totalProfiles" 0 0 1000 = Some t ∧
       ticking (ticks n t page).1 = true ∧
       (ticks (S n) t page).2 !! "totalProfiles" = Some "0".
Proof.
  eexists. split; [reflexivity|].
  match goal with |- ticking (ticks n ?t _).1 = _ ∧ _ => set (t0 := t) end.
  destruct (ticks_idle n t0 page) as (H1 & H2 & H3 & H4); [done..|].
  split; [done|].
  rewrite ticks_S. unfold fire. rewrite H1.
  destruct (tick_idle (ticks n t0 page).1 (ticks n t0 page).2)
    as (_ & _ & _ & _ & ->); [by rewrite H3 | done |].
  rewrite H4. apply lookup_insert_eq.
Qed.

End Animation.

(** ** The scripts on the sample page *)

Section Samples.
Existing Instance Plain.engine.

Example formatNumber_groups :
  Common.formatNumber 1234567 = "1,234,567" ∧
  Common.formatNumber 999 = "999" ∧
  Common.formatNumber 0 = "0".
Proof. by vm_compute. Qed.

(** The example of the specification: by posts, [ana] with 150 posts
    comes before [bob] with 5. *)
Example handleSort_posts_example :
  map username
    (App.view (App.handleSort byte_order sample_dates "posts"
                 sample_directory))
  = [Some "ana"; Some "bob"; Some "cici"].
Proof. by vm_compute. Qed.

(** On the first of March only [ana], who posted that day, is active;
    [bob] posted two months before and [cici] never. *)
Example activeProfiles_example :
  App.activeProfiles sample_dates sample_now [ana; bob; cici] = 1%N ∧
  StatsPage.activeProfiles sample_dates sample_now [ana; bob; cici] = 1%N.
Proof. by vm_compute. Qed.

(** The four counters of the directory are started in the order of the
    source, and the counter of the three profiles shows 3 once it has
    run 63 times. *)
Example updateStats_example :
  map Common.element (App.timers sample_directory)
  = ["totalProfiles"; "totalPosts"; "totalFollowers"; "activeProfiles"] ∧
  App.document
    (App.run byte_order sample_dates (replicate 63 (App.Interval 0))
       sample_directory)
  !! "totalProfiles" = Some "3".
Proof. by vm_compute. Qed.

(** An empty list is rendered as the notice that no profile matches. *)
Example renderProfiles_empty_example :
  App.document
    (App.DOMContentLoaded sample_dates (Loaded []) sample_now
       (App.start page))
  !! "profilesGrid" = Some App.empty_markup.
Proof. by vm_compute. Qed.

End Samples.

(** * Beyond the claims *)

(** ** [formatNumber] *)

Section FormatNumber.
Import Common.
Import Decimal.

Lemma remove_commas_insert (prev : option ascii) (s : string) :
  remove_commas (insert_commas prev s) = remove_commas s.
Proof.
  revert prev. induction s as [|c s IH]; intros prev; [done|].
  cbn [insert_commas]. destruct (comma_here prev (String c s)).
  - cbn. by rewrite IH.
  - cbn. by rewrite IH.
Qed.

Lemma digits_of_uint (d : Decimal.uint) :
  all_digits (NilEmpty.string_of_uint d) = true.
Proof. induction d; cbn; by rewrite ?IHd. Qed.

Lemma digits_of_uint_zero (d : Decimal.uint) :
  all_digits (NilZero.string_of_uint d) = true.
Proof. destruct d; try done; apply (digits_of_uint (_ d)). Qed.

Lemma remove_commas_digits (s : string) :
  all_digits s = true → remove_commas s = s.
Proof.
  induction s as [|c s IH]; [done|]. cbn.
  intros [Hc Hs]%andb_true_iff. rewrite (IH Hs).
  destruct (Nat.eqb_spec (nat_of_ascii c) 44) as [E|]; [|done].
  unfold is_digit in Hc. rewrite E in Hc. done.
Qed.

Lemma toString_negative (p : positive) :
  toString (Z.neg p) = String "-" (toString (Z.pos p)).
Proof. reflexivity. Qed.

Lemma toString_digits (z : Z) :
  (0 ≤ z)%Z → all_digits (toString z) = true ∧ toString z ≠ "".
Proof.
  intros Hz. destruct z as [|p|p]; [done| |lia].
  unfold toString. cbn [Z.to_int NilZero.string_of_int].
  split; [apply digits_of_uint_zero|].
  pose proof (DecimalPos.Unsigned.to_uint_nonnil p) as Hnil.
  destruct (Pos.to_uint p); done.
Qed.

(** X1.  [formatNumber] only inserts commas: with its commas taken out,
    the result is the decimal writing of the number, for every
    integer. *)
Theorem formatNumber_inserts_only_commas (z : Z) :
  remove_commas (formatNumber z) = toString z.
Proof.
  unfold formatNumber. rewrite remove_commas_insert.
  destruct z as [|p|p]; [done| |].
  - apply remove_commas_digits, toString_digits. lia.
  - rewrite toString_negative. cbn [remove_commas].
    change (nat_of_ascii "-" =? 44)%nat with false. cbn iota. f_equal.
    apply remove_commas_digits, toString_digits. lia.
Qed.

Lemma string_of_revapp (d d' : uint) :
  NilEmpty.string_of_uint (revapp d d')
  = NilEmpty.string_of_uint (rev d) +:+ NilEmpty.string_of_uint d'.
Proof.
  revert d'. unfold rev.
  induction d; intros d'; [done|..]; cbn [revapp];
    rewrite IHd, (IHd (_ Nil)); cbn; by rewrite append_assoc.
Qed.

Lemma string_of_app (d d' : uint) :
  NilEmpty.string_of_uint (app d d')
  = NilEmpty.string_of_uint d +:+ NilEmpty.string_of_uint d'.
Proof. unfold app. by rewrite string_of_revapp, DecimalFacts.rev_rev. Qed.

Lemma of_uint_app (d d' : uint) :
  (Pos.of_uint (app d d')
   = Pos.of_uint d * 10 ^ DecimalPos.Unsigned.usize d' + Pos.of_uint d')%N.
Proof.
  rewrite !DecimalPos.Unsigned.of_uint_alt.
  assert (rev (app d d') = revapp d' (rev d)) as ->.
  { apply DecimalFacts.to_list_inj.
    rewrite DecimalFacts.rev_spec, DecimalFacts.app_spec,
      DecimalFacts.revapp_spec, DecimalFacts.rev_spec, List.rev_app_distr.
    by rewrite List.rev_append_rev. }
  rewrite DecimalPos.Unsigned.of_lu_revapp. lia.
Qed.

Lemma digit_string (n : N) (d : uint) :
  (n < 10)%N →
  NilEmpty.string_of_uint (digit n d)
  = String (digit_char n) (NilEmpty.string_of_uint d).
Proof. intros Hn. unfold digit. by_digits n. Qed.

Lemma digit_app (n : N) (d : uint) : digit n d = app (digit n Nil) d.
Proof.
  unfold digit.
  by destruct (N.to_nat n) as [|[|[|[|[|[|[|[|[|[|k]]]]]]]]]].
Qed.

Lemma digit_value (n : N) : (n < 10)%N → Pos.of_uint (digit n Nil) = n.
Proof. intros Hn. unfold digit. by_digits n. Qed.

Lemma digit_usize (n : N) (d : uint) :
  DecimalPos.Unsigned.usize (digit n d)
  = N.succ (DecimalPos.Unsigned.usize d).
Proof.
  unfold digit.
  by destruct (N.to_nat n) as [|[|[|[|[|[|[|[|[|[|k]]]]]]]]]].
Qed.

Lemma digit_is_digit (n : N) : (n < 10)%N → is_digit (digit_char n) = true.
Proof. intros Hn. by_digits n. Qed.

(** The three digits of a number below a thousand, as a decimal. *)
Lemma three_digits_value (r : N) :
  (r < 1000)%N →
  let d := digit (r / 100) (digit (r / 10 mod 10) (digit (r mod 10) Nil)) in
  Pos.of_uint d = r ∧ DecimalPos.Unsigned.usize d = 3%N ∧
  NilEmpty.string_of_uint d = three_digits r.
Proof.
  intros Hr d.
  assert (r / 100 < 10)%N as Ha by (apply N.Div0.div_lt_upper_bound; lia).
  assert (r / 10 mod 10 < 10)%N as Hb by (apply N.mod_lt; lia).
  assert (r mod 10 < 10)%N as Hc by (apply N.mod_lt; lia).
  unfold d. split; [|split].
  - rewrite (digit_app (r / 100)), of_uint_app, !digit_usize.
    rewrite (digit_app (r / 10 mod 10)), of_uint_app, !digit_usize,
      !digit_value by done.
    cbn [DecimalPos.Unsigned.usize].
    change (10 ^ N.succ (N.succ 0))%N with 100%N.
    change (10 ^ N.succ 0)%N with 10%N.
    pose proof (N.Div0.div_mod r 10).
    pose proof (N.Div0.div_mod (r / 10) 10).
    assert (r / 10 / 10 = r / 100)%N by (rewrite N.Div0.div_div; done).
    lia.
  - by rewrite !digit_usize.
  - by rewrite !digit_string.
Qed.

Lemma toString_of_N (n : N) :
  toString (Z.of_N n) = NilZero.string_of_uint (N.to_uint n).
Proof. by destruct n. Qed.

Lemma string_of_uint_nonnil (d : uint) :
  d ≠ Nil → NilZero.string_of_uint d = NilEmpty.string_of_uint d.
Proof. by destruct d. Qed.

(** Digits appended to the decimal writing of a positive number give a
    decimal writing without leading zeros. *)
Lemma to_uint_app_normal (p : positive) (d' : uint) :
  unorm (app (Pos.to_uint p) d') = app (Pos.to_uint p) d'.
Proof.
  assert (unorm (Pos.to_uint p) = Pos.to_uint p) as H.
  { rewrite <- DecimalPos.Unsigned.to_of, DecimalPos.Unsigned.of_to. done. }
  pose proof (DecimalPos.Unsigned.to_uint_nonzero p) as Hnz.
  pose proof (DecimalPos.Unsigned.to_uint_nonnil p) as Hnn.
  destruct (Pos.to_uint p) as [|d|d|d|d|d|d|d|d|d|d]; [done| |..].
  1: { exfalso. unfold unorm in H. cbn [nzhead] in H.
       destruct (nzhead d) eqn:E; try done;
         by apply DecimalFacts.nzhead_nonzero in E. }
  all: match goal with |- unorm (app (?c ?x) ?y) = _ =>
         assert (app (c x) y = c (app x y)) as ->
           by (apply DecimalFacts.to_list_inj;
               rewrite DecimalFacts.app_spec; cbn;
               by rewrite DecimalFacts.app_spec)
       end; reflexivity.
Qed.

(** The decimal writing of [1000 * q + r] is that of [q] followed by the
    three digits of [r]. *)
Lemma toString_thousands (q r : N) :
  (0 < q)%N → (r < 1000)%N →
  toString (Z.of_N (1000 * q + r))
  = toString (Z.of_N q) +:+ three_digits r.
Proof.
  intros Hq Hr. destruct q as [|p]; [lia|].
  destruct (three_digits_value r Hr) as (Hval & Hsize & Hstr).
  set (d3 := digit _ _) in *.
  assert (N.to_uint (1000 * N.pos p + r) = app (Pos.to_uint p) d3) as E.
  { rewrite <- to_uint_app_normal.
    rewrite <- DecimalN.Unsigned.to_of. f_equal. unfold N.of_uint.
    rewrite of_uint_app, Hsize, Hval, DecimalPos.Unsigned.of_to. lia. }
  rewrite !toString_of_N, E. cbn [N.to_uint].
  rewrite !string_of_uint_nonnil, string_of_app, Hstr; [done| |].
  - apply DecimalPos.Unsigned.to_uint_nonnil.
  - intros Hnil. apply (f_equal NilEmpty.string_of_uint) in Hnil.
    rewrite string_of_app, Hstr in Hnil.
    by destruct (NilEmpty.string_of_uint (Pos.to_uint p)).
Qed.

Lemma digit_run_app (d r : string) :
  all_digits d = true → digit_run (d +:+ r) = String.length d + digit_run r.
Proof.
  induction d as [|c d IH]; [done|].
  cbn. intros [-> Hd]%andb_true_iff. by rewrite IH.
Qed.

Lemma digit_run_digits (d : string) :
  all_digits d = true → digit_run d = String.length d.
Proof.
  intros Hd. rewrite <- (append_empty_r d) at 1.
  rewrite digit_run_app by done. cbn. lia.
Qed.

Lemma comma_here_last3 (prev : option ascii) (d e : string) :
  all_digits d = true → d ≠ "" →
  all_digits e = true → String.length e = 3 →
  comma_here prev (d +:+ e) = comma_here prev d.
Proof.
  intros Hd Hne He Hlen. unfold comma_here. destruct prev as [p|]; [|done].
  rewrite digit_run_app, !digit_run_digits, Hlen by done.
  assert (0 < String.length d) as Hpos by (destruct d; [done | cbn; lia]).
  f_equal; [f_equal|].
  - destruct (Nat.ltb_spec 0 (String.length d + 3)),
      (Nat.ltb_spec 0 (String.length d)); (done || lia).
  - replace (String.length d + 3) with (String.length d + 1 * 3) by lia.
    by rewrite Nat.Div0.mod_add.
Qed.

Lemma insert_commas_three (c : ascii) (e : string) :
  is_digit c = true →
  all_digits e = true → String.length e = 3 →
  insert_commas (Some c) e = "," +:+ e.
Proof.
  intros Hc He Hlen.
  destruct e as [|e1 [|e2 [|e3 [|? ?]]]]; try done.
  cbn in He. apply andb_true_iff in He as [H1 He].
  apply andb_true_iff in He as [H2 He]. apply andb_true_iff in He as [H3 _].
  cbn [insert_commas]. unfold comma_here, is_word. cbn [digit_run].
  rewrite Hc, H1, H2, H3. cbn. by rewrite !orb_true_r.
Qed.

(** In a string of digits the last three are set off by a comma, and the
    digits before them are grouped as they are on their own. *)
Lemma insert_commas_last3 (prev : option ascii) (d e : string) :
  all_digits d = true → d ≠ "" →
  all_digits e = true → String.length e = 3 →
  insert_commas prev (d +:+ e) = insert_commas prev d +:+ "," +:+ e.
Proof.
  revert prev. induction d as [|c d IH]; intros prev Hd Hne He Hlen; [done|].
  change (String c d +:+ e) with (String c (d +:+ e)).
  cbn [insert_commas].
  change (String c (d +:+ e)) with (String c d +:+ e).
  rewrite comma_here_last3 by done.
  cbn in Hd. apply andb_true_iff in Hd as [Hc Hd].
  rewrite append_assoc. f_equal. cbn. f_equal.
  destruct d as [|c' d'] eqn:Ed.
  - cbn. by apply insert_commas_three.
  - rewrite <- Ed in *. apply IH; try done. by rewrite Ed.
Qed.

Lemma below_thousand_checked :
  forallb (λ n, String.eqb (formatNumber (Z.of_nat n)) (toString (Z.of_nat n)))
    (seq 0 1000) = true.
Proof. by vm_compute. Qed.

Lemma three_digits_digits (r : N) :
  (r < 1000)%N →
  all_digits (three_digits r) = true ∧ String.length (three_digits r) = 3.
Proof.
  intros Hr. split; [|done]. unfold three_digits. cbn.
  rewrite !digit_is_digit; [done|apply N.mod_lt; lia..|].
  apply N.Div0.div_lt_upper_bound; lia.
Qed.

(** X2.  Among the safe integers, a non-negative one below a thousand is
    written without a comma, and from a thousand on the last three digits
    are set off by a comma from the formatted thousands. *)
Theorem formatNumber_groups_thousands (q r : N) :
  (r < 1000)%N →
  (Z.of_N (1000 * q + r) ≤ max_safe)%Z →
  formatNumber (Z.of_N r) = toString (Z.of_N r) ∧
  ((0 < q)%N →
   formatNumber (Z.of_N (1000 * q + r))
   = formatNumber (Z.of_N q) +:+ "," +:+ three_digits r).
Proof.
  intros Hr _. split.
  - pose proof below_thousand_checked as H.
    rewrite forallb_forall in H. specialize (H (N.to_nat r)).
    rewrite <- (N_nat_Z r). apply String.eqb_eq, H, in_seq. lia.
  - intros Hq. unfold formatNumber.
    rewrite toString_thousands by done.
    destruct (toString_digits (Z.of_N q)) as [Hd Hne]; [lia|].
    destruct (three_digits_digits r Hr) as [He Hlen].
    by apply insert_commas_last3.
Qed.

(** X3.  A negative integer is formatted as its absolute value behind
    the minus sign: no comma follows the sign. *)
Theorem formatNumber_negative (z : Z) :
  (0 < z)%Z → formatNumber (- z) = "-" +:+ formatNumber z.
Proof.
  intros Hz. destruct z as [|p|p]; [lia| |lia].
  unfold formatNumber. change (- Z.pos p)%Z with (Z.neg p).
  rewrite toString_negative.
  destruct (toString_digits (Z.pos p)) as [Hd Hne]; [lia|].
  destruct (toString (Z.pos p)) as [|c s]; [done|].
  cbn in Hd. apply andb_true_iff in Hd as [Hc Hd].
  cbn [insert_commas]. unfold comma_here. cbn [is_word].
  change (is_word "-") with false. cbn. done.
Qed.

End FormatNumber.

Lemma formatNumber_groups_thousands_witness :
  (56 < 1000)%N ∧ (Z.of_N (1000 * 1234 + 56) ≤ max_safe)%Z ∧ (0 < 1234)%N ∧
  Common.formatNumber 56 = "56" ∧
  Common.formatNumber 1234056 = "1,234,056".
Proof.
  assert (56 < 1000)%N as Hr by lia. assert (0 < 1234)%N as Hq by lia.
  assert (Z.of_N (1000 * 1234 + 56) ≤ max_safe)%Z as Hs by (by vm_compute).
  split; [exact Hr|]. split; [exact Hs|]. split; [exact Hq|].
  destruct (formatNumber_groups_thousands 1234 56 Hr Hs) as [H1 H2].
  split; [exact H1 | exact (H2 Hq)].
Defined.

Lemma formatNumber_negative_witness :
  (0 < 1234)%Z ∧ Common.formatNumber (-1234) = "-1,234".
Proof.
  assert (0 < 1234)%Z as H by lia.
  split; [exact H | exact (formatNumber_negative 1234 H)].
Defined.
Section EscapeHtml.
Import Common.

Lemma includes_char (s : string) (c : ascii) :
  includes s (String c "") = mentions c s.
Proof.
  induction s as [|d s IH]; [done|].
  cbn [includes mentions String.prefix]. rewrite IH.
  destruct (ascii_dec c d) as [->|Hne].
  - rewrite Ascii.eqb_refl. by destruct s.
  - by apply Ascii.eqb_neq in Hne as ->.
Qed.

Lemma mentions_app (c : ascii) (a b : string) :
  mentions c (a +:+ b) = mentions c a || mentions c b.
Proof.
  induction a as [|d a IH]; [done|]. cbn. by rewrite IH, orb_assoc.
Qed.

Lemma eqb_nat_of_ascii (c d : ascii) :
  Ascii.eqb c d = (nat_of_ascii d =? nat_of_ascii c)%nat.
Proof.
  destruct (Ascii.eqb_spec c d) as [->|Hne].
  - by rewrite Nat.eqb_refl.
  - symmetry. apply Nat.eqb_neq. intros H. apply Hne.
    by rewrite <- (ascii_nat_embedding c), <- H, ascii_nat_embedding.
Qed.

Lemma serialize_text_safe (c : ascii) (text : string) :
  nat_of_ascii c = 60 ∨ nat_of_ascii c = 62 →
  mentions c (serialize_text text) = false.
Proof.
  intros Hc.
  assert (mentions c "&amp;" = false ∧ mentions c "&lt;" = false ∧
          mentions c "&gt;" = false ∧ mentions c "&nbsp;" = false)
    as (Hamp & Hlt & Hgt & Hnbsp).
  { assert (c = "<"%char ∨ c = ">"%char) as [-> | ->]; [|done..].
    destruct Hc as [H|H]; [left|right];
      rewrite <- (ascii_nat_embedding c), H; reflexivity. }
  enough (mentions c (serialize_text text) = false ∧
          ∀ d, mentions c (serialize_text (String d text)) = false) as [H _]
    by exact H.
  induction text as [|e text [IH IH']].
  - split; [done|]. intros d. cbn [serialize_text].
    destruct (Nat.eqb_spec (nat_of_ascii d) 38); [done|].
    destruct (Nat.eqb_spec (nat_of_ascii d) 60); [done|].
    destruct (Nat.eqb_spec (nat_of_ascii d) 62); [done|].
    cbn [mentions]. rewrite eqb_nat_of_ascii, orb_false_r.
    apply Nat.eqb_neq. lia.
  - split; [apply IH'|]. intros d.
    specialize (IH' e). cbn [serialize_text] in *.
    destruct (Nat.eqb_spec (nat_of_ascii d) 38);
      [by rewrite mentions_app, Hamp|].
    destruct (Nat.eqb_spec (nat_of_ascii d) 60);
      [by rewrite mentions_app, Hlt|].
    destruct (Nat.eqb_spec (nat_of_ascii d) 62);
      [by rewrite mentions_app, Hgt|].
    destruct ((nat_of_ascii d =? 194)%nat && (nat_of_ascii e =? 160)%nat);
      [by rewrite mentions_app, Hnbsp|].
    cbn [mentions]. rewrite IH', eqb_nat_of_ascii, orb_false_r.
    apply Nat.eqb_neq. lia.
Qed.

Lemma serialize_text_plain (text : string) :
  mentions "&" text = false → mentions "<" text = false →
  mentions ">" text = false → includes text nbsp = false →
  serialize_text text = text.
Proof.
  induction text as [|d text IH]; [done|].
  cbn [mentions includes].
  intros [H1 H1']%orb_false_iff [H2 H2']%orb_false_iff
         [H3 H3']%orb_false_iff [H4 H4']%orb_false_iff.
  specialize (IH H1' H2' H3' H4').
  rewrite eqb_nat_of_ascii in H1, H2, H3.
  change (nat_of_ascii "&") with 38 in H1.
  change (nat_of_ascii "<") with 60 in H2.
  change (nat_of_ascii ">") with 62 in H3.
  cbn [serialize_text]. rewrite H1, H2, H3.
  destruct text as [|e text]; [done|]. rewrite IH.
  destruct (Nat.eqb_spec (nat_of_ascii d) 194) as [Hd|]; [|done].
  destruct (Nat.eqb_spec (nat_of_ascii e) 160) as [He|]; [|done].
  exfalso. apply (f_equal ascii_of_nat) in Hd, He.
  rewrite ascii_nat_embedding in Hd, He. subst d e.
  apply not_true_iff_false in H4. apply H4, prefix_split. by exists text.
Qed.

(** X4.  Whatever the text, [escapeHtml] yields markup in which neither
    [<] nor [>] occurs, so that it cannot open or close a tag; a text
    without [&], [<], [>] and no-break space is left as it is. *)
Theorem escapeHtml_never_emits_markup (text : string) :
  includes (escapeHtml text) "<" = false ∧
  includes (escapeHtml text) ">" = false ∧
  (includes text "&" = false → includes text "<" = false →
   includes text ">" = false → includes text nbsp = false →
   escapeHtml text = text).
Proof.
  unfold escapeHtml. rewrite !includes_char.
  split; [by apply serialize_text_safe; left|].
  split; [by apply serialize_text_safe; right|].
  apply serialize_text_plain.
Qed.
End EscapeHtml.
Section Directory.
Import Common App.
Context {Eng : Engine}.
Variable localeCompare : string → string → Z.
Variable getTime : string → option Z.

Lemma renderProfiles_grid (st : State) : grid_shows_view (renderProfiles st).
Proof.
  intros text.
  rewrite (same_arrays_view _ _ (renderProfiles_arrays st)).
  unfold renderProfiles, grid_markup.
  destruct (document st !! "profilesGrid") as [x|] eqn:E.
  - destruct (length (view st) =? 0)%nat; cbn;
      rewrite lookup_insert_eq; congruence.
  - congruence.
Qed.

Lemma renderProfiles_other (st : State) (id : string) :
  id ≠ "profilesGrid" →
  document (renderProfiles st) !! id = document st !! id.
Proof.
  intros Hid. unfold renderProfiles.
  destruct (document st !! "profilesGrid"); [|done].
  destruct (length (view st) =? 0)%nat; cbn; by rewrite lookup_insert_ne.
Qed.

Lemma renderProfiles_timers (st : State) :
  timers (renderProfiles st) = timers st.
Proof.
  unfold renderProfiles. destruct (document st !! "profilesGrid"); [|done].
  by destruct (length (view st) =? 0)%nat.
Qed.

Lemma updateResultsCount_timers (st : State) :
  timers (updateResultsCount st) = timers st.
Proof.
  unfold updateResultsCount. by destruct (document st !! "resultsCount").
Qed.

Lemma handleSearch_timers (value : string) (st : State) :
  timers (handleSearch value st) = timers st.
Proof.
  unfold handleSearch. destruct (alloc _ _) as [fp h].
  by rewrite renderProfiles_timers, updateResultsCount_timers.
Qed.

Lemma handleSort_timers (sortBy : string) (st : State) :
  timers (handleSort localeCompare getTime sortBy st) = timers st.
Proof. unfold handleSort. by rewrite renderProfiles_timers. Qed.

Lemma handleSearch_grid (value : string) (st : State) :
  grid_shows_view (handleSearch value st).
Proof.
  unfold handleSearch. destruct (alloc _ _) as [fp h].
  apply renderProfiles_grid.
Qed.

Lemma handleSort_grid (sortBy : string) (st : State) :
  grid_shows_view (handleSort localeCompare getTime sortBy st).
Proof. apply renderProfiles_grid. Qed.

Lemma tick_element (t : Timer) (doc : gmap string string) :
  element (tick t doc).1 = element t ∧
  (tick t doc).2
  = <[element t := default "" ((tick t doc).2 !! element t)]> doc.
Proof.
  unfold tick. cbn [fst snd element]. split; [done|].
  by rewrite lookup_insert_eq.
Qed.

Lemma fire_element (t : Timer) (doc : gmap string string) (id : string) :
  element (fire t doc).1 = element t ∧
  (id ≠ element t → (fire t doc).2 !! id = doc !! id).
Proof.
  unfold fire. destruct (ticking t); [|done].
  destruct (tick_element t doc) as [He Hd]. split; [done|].
  intros Hid. rewrite Hd. by rewrite lookup_insert_ne.
Qed.

Lemma counter_ids_other (id : string) :
  id ∈ counter_ids → id ≠ "profilesGrid" ∧ id ≠ "resultsCount".
Proof.
  unfold counter_ids. rewrite !elem_of_cons, elem_of_nil.
  intros [->|[->|[->|[->|[]]]]]; done.
Qed.

(** A tick of a counter keeps the arrays and writes to its own element
    alone. *)
Lemma interval_frame (i : nat) (st : State) :
  counters_only st →
  let st' := dispatch localeCompare getTime st (Interval i) in
  same_arrays st st' ∧ counters_only st' ∧
  document st' !! "profilesGrid" = document st !! "profilesGrid" ∧
  document st' !! "resultsCount" = document st !! "resultsCount".
Proof.
  intros Hc. cbn. destruct (timers st !! i) as [t|] eqn:Et; [|done].
  destruct (fire t (document st)) as [t' d] eqn:Ef. cbn.
  assert (element t ∈ counter_ids) as Hin.
  { apply (Forall_lookup_1 _ _ _ _ Hc Et). }
  destruct (counter_ids_other _ Hin) as [Hg Hr].
  pose proof (fire_element t (document st)) as Hf. rewrite Ef in Hf.
  cbn in Hf. split; [done|]. split; [|split].
  - unfold counters_only. cbn. apply Forall_insert; [done|].
    destruct (Hf "") as [-> _]. done.
  - by apply Hf.
  - by apply Hf.
Qed.

Lemma animate_counters (id : string) (finish : N) (st : State) :
  id ∈ counter_ids → counters_only st → counters_only (animate id finish st).
Proof.
  intros Hid Hc. unfold animate, animateValue.
  destruct (document st !! id); [|done].
  unfold counters_only. cbn. apply Forall_app. split; [done|].
  by apply Forall_singleton.
Qed.

Lemma loadProfiles_timers (r : Fetched (list Profile)) (st : State) :
  timers (loadProfiles r st) = timers st.
Proof.
  destruct (failed r) eqn:Hr.
  - rewrite loadProfiles_error by done. unfold showError.
    cbn [document console_error].
    by destruct (document st !! "profilesGrid").
  - by destruct r.
Qed.

Lemma DOMContentLoaded_separate (r : Fetched (list Profile))
    (now : nat → Z) (doc : gmap string string) :
  separate (DOMContentLoaded getTime r now (start doc)).
Proof.
  apply (same_arrays_separate _ _
           (DOMContentLoaded_arrays getTime r now (start doc))).
  destruct (failed r) eqn:Hr.
  - apply (same_arrays_separate _ _ (loadProfiles_failed r _ Hr)).
    apply start_separate.
  - destruct r; first [apply loadProfiles_loaded | done].
Qed.

(** What holds of the directory when the page is initialised ... *)
Lemma DOMContentLoaded_invariants (r : Fetched (list Profile))
    (now : nat → Z) (doc : gmap string string) :
  let st := DOMContentLoaded getTime r now (start doc) in
  separate st ∧ grid_shows_view st ∧ counters_only st.
Proof.
  split; [apply DOMContentLoaded_separate|].
  split; [apply renderProfiles_grid|].
  unfold counters_only, DOMContentLoaded.
  rewrite renderProfiles_timers. unfold updateStats.
  repeat (apply animate_counters;
          [unfold counter_ids; rewrite !elem_of_cons; tauto|]).
  unfold counters_only. change (timers (setupSearch ?s)) with (timers s).
  rewrite loadProfiles_timers. constructor.
Qed.

(** ... and is kept by every event. *)
Lemma dispatch_invariants (st : State) (e : Event) :
  separate st ∧ grid_shows_view st ∧ counters_only st →
  let st' := dispatch localeCompare getTime st e in
  separate st' ∧ grid_shows_view st' ∧ counters_only st'.
Proof.
  intros (Hsep & Hgrid & Hc) st'.
  split; [by apply dispatch_source|]. unfold st'.
  destruct e as [value|sortBy|i].
  - cbn [dispatch]. destruct (on_input st); [|done].
    split; [apply handleSearch_grid|].
    unfold counters_only. by rewrite handleSearch_timers.
  - cbn [dispatch]. destruct (on_change st); [|done].
    split; [apply handleSort_grid|].
    unfold counters_only. by rewrite handleSort_timers.
  - destruct (interval_frame i st Hc) as (Ha & Hc' & Hg & _).
    split; [|done]. intros text. rewrite Hg, (same_arrays_view _ _ Ha).
    apply Hgrid.
Qed.

Lemma run_invariants (es : list Event) (st : State) :
  separate st ∧ grid_shows_view st ∧ counters_only st →
  let st' := run localeCompare getTime es st in
  separate st' ∧ grid_shows_view st' ∧ counters_only st'.
Proof.
  revert st. induction es as [|e es IH]; intros st Hinv; [done|].
  change (run localeCompare getTime (e :: es) st)
    with (run localeCompare getTime es (dispatch localeCompare getTime st e)).
  by apply IH, dispatch_invariants.
Qed.

(** X5.  Whatever the outcome of the fetch and whatever events have run
    since, the grid of the page, if it has one, holds the rendering of
    the filtered view: the notice when the view is empty, the cards of
    its profiles in their order otherwise. *)
Theorem grid_always_shows_view (doc : gmap string string)
    (r : Fetched (list Profile)) (now : nat → Z) (es : list Event) :
  grid_shows_view (ready localeCompare getTime doc r now es).
Proof.
  apply (run_invariants es), DOMContentLoaded_invariants.
Qed.

Lemma handleSearch_count (value : string) (st : State) :
  count_shows_view (handleSearch value st).
Proof.
  intros text. unfold handleSearch.
  destruct (alloc _ _) as [fp h]. set (st1 := set_arrays _ _ _ _).
  rewrite renderProfiles_other by done.
  rewrite (same_arrays_view _ _ (renderProfiles_arrays _)),
    (same_arrays_view _ _ (updateResultsCount_arrays _)).
  unfold updateResultsCount.
  destruct (document st1 !! "resultsCount") as [x|] eqn:E.
  - cbn. rewrite lookup_insert_eq. congruence.
  - congruence.
Qed.

Lemma dispatch_count (st : State) (e : Event) :
  counters_only st → count_shows_view st →
  count_shows_view (dispatch localeCompare getTime st e).
Proof.
  intros Hc Hcount. destruct e as [value|sortBy|i].
  - cbn [dispatch]. destruct (on_input st); [apply handleSearch_count | done].
  - cbn [dispatch]. destruct (on_change st); [|done].
    intros text. unfold handleSort.
    rewrite renderProfiles_other by done. cbn [document set_arrays].
    fold (handleSort localeCompare getTime sortBy st).
    rewrite (Permutation_length
               (handleSort_permutes localeCompare getTime sortBy st)).
    apply Hcount.
  - destruct (interval_frame i st Hc)
      as (Ha & _ & _ & Hr).
    intros text. rewrite Hr, (same_arrays_view _ _ Ha). apply Hcount.
Qed.

(** X6.  Once a search has run, the results counter of the page, if it
    has one, shows the number of profiles in the filtered view, and goes
    on doing so through every later search, sort and tick. *)
Theorem count_shows_view_after_search (doc : gmap string string)
    (r : Fetched (list Profile)) (now : nat → Z) (es es' : list Event)
    (value : string) :
  count_shows_view
    (run localeCompare getTime es'
       (handleSearch value (ready localeCompare getTime doc r now es))).
Proof.
  set (st0 := handleSearch value _).
  assert (counters_only st0 ∧ count_shows_view st0) as Hinv.
  { split; [|apply handleSearch_count].
    unfold st0, counters_only. rewrite handleSearch_timers.
    apply (run_invariants es), DOMContentLoaded_invariants. }
  clearbody st0. revert st0 Hinv.
  induction es' as [|e es' IH]; intros st0 [Hc Hcount]; [done|].
  change (run localeCompare getTime (e :: es') st0)
    with (run localeCompare getTime es'
            (dispatch localeCompare getTime st0 e)).
  apply IH. split; [|by apply dispatch_count].
  destruct e as [v|k|i]; cbn [dispatch].
  - destruct (on_input st0); [|done].
    unfold counters_only. by rewrite handleSearch_timers.
  - destruct (on_change st0); [|done].
    unfold counters_only. by rewrite handleSort_timers.
  - by apply (interval_frame i st0).
Qed.

Lemma loadProfiles_other (r : Fetched (list Profile)) (st : State)
    (id : string) :
  id ≠ "profilesGrid" →
  document (loadProfiles r st) !! id = document st !! id.
Proof.
  intros Hid. destruct (failed r) eqn:Hr.
  - rewrite loadProfiles_error by done. unfold showError.
    cbn [document console_error].
    destruct (document st !! "profilesGrid"); [|done].
    cbn [document set_document]. by rewrite lookup_insert_ne.
  - by destruct r.
Qed.

(** X7.  Initialising the page writes to the grid alone: every other
    element, the counters and the results counter among them, holds what
    the markup of the page gave it, whatever the outcome of the fetch. *)
Theorem DOMContentLoaded_writes_grid_only (r : Fetched (list Profile))
    (now : nat → Z) (doc : gmap string string) (id : string) :
  id ≠ "profilesGrid" →
  document (DOMContentLoaded getTime r now (start doc)) !! id = doc !! id.
Proof.
  intros Hid. unfold DOMContentLoaded.
  rewrite renderProfiles_other, updateStats_document by done.
  change (document (setupSearch ?s)) with (document s).
  by rewrite loadProfiles_other.
Qed.

Lemma dispatch_empty (st : State) (e : Event) :
  separate st ∧ source st = [] ∧ view st = [] →
  let st' := dispatch localeCompare getTime st e in
  separate st' ∧ source st' = [] ∧ view st' = [].
Proof.
  intros (Hsep & Hsrc & Hview) st'.
  destruct (dispatch_source localeCompare getTime st e Hsep) as [Hsep' Hsrc'].
  split; [done|]. split; [unfold st'; congruence|].
  unfold st'. destruct e as [value|sortBy|i]; cbn [dispatch].
  - destruct (on_input st); [|done].
    destruct (handleSearch_arrays value st Hsep) as (_ & _ & ->).
    rewrite Hsrc. by destruct (String.eqb _ _).
  - destruct (on_change st); [|done].
    destruct (handleSort_arrays localeCompare getTime sortBy st) as [-> _].
    by rewrite Hview.
  - destruct (timers st !! i) as [t|]; [|done].
    by destruct (fire t (document st)).
Qed.

(** X8.  After a failed load the filtered view is empty and stays empty
    through every search, sort and tick, and the grid, if the page has
    one, holds the notice that no profile matches: the error that
    [loadProfiles] wrote does not come back. *)
Theorem failed_load_stays_empty (doc : gmap string string)
    (r : Fetched (list Profile)) (now : nat → Z) (es : list Event) :
  failed r = true →
  view (ready localeCompare getTime doc r now es) = [] ∧
  ∀ text,
    document (ready localeCompare getTime doc r now es) !! "profilesGrid"
    = Some text →
    text = empty_markup.
Proof.
  intros Hr.
  assert (view (ready localeCompare getTime doc r now es) = []) as Hview.
  { unfold ready.
    assert (separate (DOMContentLoaded getTime r now (start doc)) ∧
            source (DOMContentLoaded getTime r now (start doc)) = [] ∧
            view (DOMContentLoaded getTime r now (start doc)) = []) as H0.
    { split; [apply DOMContentLoaded_separate|].
      pose proof (DOMContentLoaded_arrays getTime r now (start doc)) as Ha.
      rewrite (same_arrays_source _ _ Ha), (same_arrays_view _ _ Ha).
      pose proof (loadProfiles_failed r (start doc) Hr) as Hb.
      by rewrite (same_arrays_source _ _ Hb), (same_arrays_view _ _ Hb). }
    revert H0. generalize (DOMContentLoaded getTime r now (start doc)).
    induction es as [|e es IH]; intros st H0; [apply H0|].
    change (run localeCompare getTime (e :: es) st)
      with (run localeCompare getTime es
              (dispatch localeCompare getTime st e)).
    by apply IH, dispatch_empty. }
  split; [done|]. intros text Htext.
  destruct (run_invariants es _ (DOMContentLoaded_invariants r now doc))
    as (_ & Hgrid & _).
  apply Hgrid in Htext.
  fold (ready localeCompare getTime doc r now es) in Htext.
  by rewrite Hview in Htext.
Qed.
End Directory.

Section DirectorySamples.
Existing Instance Plain.engine.

Lemma DOMContentLoaded_writes_grid_only_witness :
  "resultsCount" ≠ "profilesGrid" ∧
  App.document sample_directory !! "resultsCount" = Some "".
Proof.
  assert ("resultsCount" ≠ "profilesGrid") as H by done.
  split; [exact H|].
  exact (DOMContentLoaded_writes_grid_only sample_dates
           (Loaded [ana; bob; cici]) sample_now page "resultsCount" H).
Defined.

Lemma failed_load_stays_empty_witness :
  failed (HttpError (A := list Profile) 404) = true ∧
  App.view
    (ready byte_order sample_dates page (HttpError 404) sample_now
       [App.Input "ana"; App.Change "name"; App.Interval 0])
  = [].
Proof.
  split; [reflexivity|].
  exact (proj1 (failed_load_stays_empty byte_order sample_dates page
                  (HttpError 404) sample_now
                  [App.Input "ana"; App.Change "name"; App.Interval 0]
                  eq_refl)).
Defined.

End DirectorySamples.

(** ** Searching, beyond the claims *)

Section SearchMore.
Import Common App.
Context {Eng : Engine}.
Variable localeCompare : string → string → Z.
Variable getTime : string → option Z.


Lemma occurs_trans (a b c : string) : occurs a b → occurs b c → occurs a c.
Proof.
  intros (x & y & ->) (x' & y' & ->).
  exists (x' +:+ x), (y +:+ y'). by rewrite !append_assoc.
Qed.

Lemma filter_sublist_impl {A} (f g : A → bool) (l : list A) :
  (∀ x, f x = true → g x = true) →
  List.filter f l `sublist_of` List.filter g l.
Proof.
  intros Hfg. induction l as [|x l IH]; [done|]. cbn.
  destruct (f x) eqn:Hf.
  - rewrite (Hfg x Hf). by apply sublist_skip.
  - destruct (g x); [by apply sublist_cons | done].
Qed.

Lemma search_match_narrows (t t' : string) (p : Profile) :
  occurs (toLowerCase t) (toLowerCase t') →
  search_match t' p = true → search_match t p = true.
Proof.
  intros Hocc. unfold search_match.
  rewrite !orb_true_iff, !includes_occurs.
  intros [[H|H]|H]; [left; left | left; right | right];
    by apply (occurs_trans _ (toLowerCase t')).
Qed.

Lemma ready_separate (doc : gmap string string) (r : Fetched (list Profile))
    (now : nat → Z) (es : list Event) :
  separate (ready localeCompare getTime doc r now es).
Proof. apply run_source, DOMContentLoaded_separate. Qed.

(** X10.  A longer query narrows the result: when neither of two inputs
    is trimmed to nothing and the search term of the first, which is its
    lower-cased, trimmed form lower-cased once more, occurs in the search
    term of the second, the profiles found for the second are among those
    found for the first, in the same order. *)
Theorem handleSearch_narrows (doc : gmap string string)
    (r : Fetched (list Profile)) (now : nat → Z) (es : list Event)
    (value value' : string) :
  let st := ready localeCompare getTime doc r now es in
  let t := trim (toLowerCase value) in
  let t' := trim (toLowerCase value') in
  t ≠ "" → t' ≠ "" →
  occurs (toLowerCase t) (toLowerCase t') →
  view (handleSearch value' st) `sublist_of` view (handleSearch value st).
Proof.
  intros st t t' Ht Ht' Hocc.
  pose proof (ready_separate doc r now es) as Hsep. fold st in Hsep.
  destruct (handleSearch_arrays value st Hsep) as (_ & _ & ->).
  destruct (handleSearch_arrays value' st Hsep) as (_ & _ & ->).
  fold t t'.
  destruct (String.eqb_spec t ""); [done|].
  destruct (String.eqb_spec t' ""); [done|].
  apply filter_sublist_impl. intros p.
  by apply search_match_narrows.
Qed.

End SearchMore.

Section SearchMoreSamples.
Existing Instance Plain.engine.


Lemma handleSearch_narrows_witness :
  trim (toLowerCase "a") ≠ "" ∧ trim (toLowerCase "Ana") ≠ "" ∧
  occurs (toLowerCase (trim (toLowerCase "a")))
         (toLowerCase (trim (toLowerCase "Ana"))) ∧
  (let st := ready byte_order sample_dates page (Loaded [ana; bob; cici])
               sample_now [] in
   App.view (App.handleSearch "Ana" st)
     `sublist_of` App.view (App.handleSearch "a" st)).
Proof.
  assert (trim (toLowerCase "a") ≠ "") as H1 by (by vm_compute).
  assert (trim (toLowerCase "Ana") ≠ "") as H1' by (by vm_compute).
  assert (occurs (toLowerCase (trim (toLowerCase "a")))
                 (toLowerCase (trim (toLowerCase "Ana")))) as H2
    by (by exists "", "na").
  split; [exact H1|]. split; [exact H1'|]. split; [exact H2|].
  exact (handleSearch_narrows byte_order sample_dates page
           (Loaded [ana; bob; cici]) sample_now [] "a" "Ana" H1 H1' H2).
Defined.

End SearchMoreSamples.

(** ** Sorting, beyond the claims *)

Section SortMore.
Context {A : Type} (cmp : A → A → Z).

(** A list that is in order is left as it is. *)
Lemma sort_sorted_id (l : list A) :
  Sorted (before cmp) l → sort cmp l = l.
Proof.
  induction 1 as [|x l Hs IH Hhd]; [done|].
  cbn [sort]. rewrite IH. destruct Hhd as [|y l Hxy]; [done|].
  cbn. unfold before in Hxy. by apply Z.leb_le in Hxy as ->.
Qed.

Lemma sort_insert_Forall (P : A → Prop) (x : A) (l : list A) :
  P x → Forall P l → Forall P (sort_insert cmp x l).
Proof.
  intros Hx Hl. rewrite sort_insert_perm. by constructor.
Qed.

Lemma sort_insert_ext (cmp' : A → A → Z) (P : A → Prop) (x : A) (l : list A) :
  (∀ a b, P a → P b → cmp a b = cmp' a b) →
  P x → Forall P l →
  sort_insert cmp x l = sort_insert cmp' x l.
Proof.
  intros Hext Hx Hl. induction Hl as [|y l Hy Hl IH]; [done|].
  cbn. rewrite (Hext x y Hx Hy), IH. done.
Qed.

(** The sort depends on the comparator on the elements of the list
    alone. *)
Lemma sort_ext (cmp' : A → A → Z) (P : A → Prop) (l : list A) :
  (∀ a b, P a → P b → cmp a b = cmp' a b) →
  Forall P l →
  sort cmp l = sort cmp' l.
Proof.
  intros Hext Hl. induction Hl as [|x l Hx Hl IH]; [done|].
  cbn [sort]. rewrite <- IH.
  apply (sort_insert_ext cmp' P); [done..|].
  by rewrite sort_perm.
Qed.

End SortMore.

Section HandleSortMore.
Import Common App.
Context {Eng : Engine}.
Variable localeCompare : string → string → Z.
Variable getTime : string → option Z.

Lemma handleSort_view (sortBy : string) (st : State) :
  view (handleSort localeCompare getTime sortBy st)
  = sort (comparator localeCompare getTime sortBy) (view st).
Proof. apply handleSort_arrays. Qed.

(** X11.  A sort key other than [name], [posts], [followers] and [recent]
    leaves the filtered view as it is. *)
Theorem handleSort_unknown_key (sortBy : string) (st : State) :
  sortBy ∉ ["name"; "posts"; "followers"; "recent"] →
  view (handleSort localeCompare getTime sortBy st) = view st.
Proof.
  intros Hkey. rewrite handleSort_view.
  apply sort_sorted_id.
  assert (∀ a b, comparator localeCompare getTime sortBy a b = 0%Z) as H0.
  { intros a b. unfold comparator.
    destruct (String.eqb_spec sortBy "name") as [E|_];
      [exfalso; apply Hkey; rewrite !elem_of_cons; tauto|].
    destruct (String.eqb_spec sortBy "posts") as [E|_];
      [exfalso; apply Hkey; rewrite !elem_of_cons; tauto|].
    destruct (String.eqb_spec sortBy "followers") as [E|_];
      [exfalso; apply Hkey; rewrite !elem_of_cons; tauto|].
    destruct (String.eqb_spec sortBy "recent") as [E|_];
      [exfalso; apply Hkey; rewrite !elem_of_cons; tauto|].
    done. }
  induction (view st) as [|x l IH]; constructor; [done|].
  destruct l; constructor. unfold before. by rewrite H0.
Qed.

(** X12.  Sorting by posts yields a permutation of the filtered view in
    which every profile has at least as many posts (0 when the count is
    missing) as all that come after it. *)
Theorem handleSort_by_posts (st : State) :
  view (handleSort localeCompare getTime "posts" st) ≡ₚ view st ∧
  StronglySorted (at_least statuses_count)
    (view (handleSort localeCompare getTime "posts" st)).
Proof. split; [apply handleSort_permutes | apply handleSort_posts]. Qed.

(** X13.  When the date of creation of every profile of the view is
    missing or valid, sorting by [recent] yields a permutation in which
    every profile is at least as recent as all that come after it, a
    missing date standing for the epoch. *)
Theorem handleSort_by_recent (st : State) :
  Forall (λ p, is_Some (created getTime p)) (view st) →
  view (handleSort localeCompare getTime "recent" st) ≡ₚ view st ∧
  StronglySorted (λ a b, (created_time getTime b ≤ created_time getTime a)%Z)
    (view (handleSort localeCompare getTime "recent" st)).
Proof.
  intros Hvalid. split; [apply handleSort_permutes|].
  rewrite handleSort_view.
  rewrite (sort_ext _
             (λ a b, (created_time getTime b - created_time getTime a)%Z)
             (λ p, is_Some (created getTime p))); [|..|done].
  - eapply StronglySorted_ind with
      (P := λ l, StronglySorted
                   (λ a b, (created_time getTime b
                            ≤ created_time getTime a)%Z) l);
      [constructor | | apply sort_strongly_sorted].
    + intros a l _ IH Hall. constructor; [done|].
      eapply Forall_impl; [exact Hall|]. unfold before. intros b. cbn. lia.
    + intros a b. lia.
    + intros a b c. lia.
  - intros a b [ta Ha] [tb Hb]. unfold created_time.
    change (comparator localeCompare getTime "recent" a b)
      with (match created getTime b, created getTime a with
            | Some tb, Some ta => (tb - ta)%Z
            | _, _ => 0%Z
            end).
    by rewrite Ha, Hb.
Qed.

Hypothesis localeCompare_total :
  ∀ a b, (localeCompare a b ≤ 0 ∨ localeCompare b a ≤ 0)%Z.

Lemma comparator_total (sortBy : string) (a b : Profile) :
  (comparator localeCompare getTime sortBy a b ≤ 0 ∨
   comparator localeCompare getTime sortBy b a ≤ 0)%Z.
Proof.
  unfold comparator.
  destruct (String.eqb sortBy "name"); [apply localeCompare_total|].
  destruct (String.eqb sortBy "posts"); [lia|].
  destruct (String.eqb sortBy "followers"); [lia|].
  destruct (String.eqb sortBy "recent"); [|lia].
  destruct (created getTime a), (created getTime b); lia.
Qed.

(** X14.  Sorting twice by the same key gives what sorting once gives,
    for every key but [recent], and for [recent] when the date of creation
    of every profile of the view is missing or valid; the comparison of
    the locale is taken to be total. *)
Theorem handleSort_idempotent (sortBy : string) (st : State) :
  sortBy ≠ "recent" ∨ Forall (λ p, is_Some (created getTime p)) (view st) →
  view (handleSort localeCompare getTime sortBy
          (handleSort localeCompare getTime sortBy st))
  = view (handleSort localeCompare getTime sortBy st).
Proof.
  intros _. rewrite !handleSort_view. apply sort_sorted_id, sort_sorted.
  apply comparator_total.
Qed.

End HandleSortMore.

Section HandleSortSamples.
Existing Instance Plain.engine.

Lemma handleSort_unknown_key_witness :
  ("date" ∉ ["name"; "posts"; "followers"; "recent"]) ∧
  (App.view (App.handleSort byte_order sample_dates "date" sample_directory)
   = [ana; bob; cici]).
Proof.
  assert ("date" ∉ ["name"; "posts"; "followers"; "recent"]) as H.
  { rewrite !elem_of_cons, elem_of_nil.
    intros [E|[E|[E|[E|[]]]]]; discriminate E. }
  split; [exact H|].
  exact (handleSort_unknown_key byte_order sample_dates "date"
           sample_directory H).
Defined.

Lemma handleSort_by_recent_witness :
  let st := App.loadProfiles (Loaded [dana; emil]) (App.start page) in
  Forall (λ p, is_Some (App.created sample_dates p)) (App.view st) ∧
  StronglySorted
    (λ a b, (created_time sample_dates b ≤ created_time sample_dates a)%Z)
    (App.view (App.handleSort byte_order sample_dates "recent" st)).
Proof.
  assert (Forall (λ p, is_Some (App.created sample_dates p))
            (App.view (App.loadProfiles (Loaded [dana; emil])
                         (App.start page)))) as H.
  { repeat constructor; by eexists. }
  split; [exact H|].
  exact (proj2 (handleSort_by_recent byte_order sample_dates _ H)).
Defined.

Lemma handleSort_idempotent_witness :
  (∀ a b, (byte_order a b ≤ 0 ∨ byte_order b a ≤ 0)%Z) ∧
  ("name" ≠ "recent" ∨
   Forall (λ p, is_Some (App.created sample_dates p))
     (App.view sample_directory)) ∧
  App.view
    (App.handleSort byte_order sample_dates "name"
       (App.handleSort byte_order sample_dates "name" sample_directory))
  = App.view (App.handleSort byte_order sample_dates "name" sample_directory).
Proof.
  assert ("name" ≠ "recent" ∨
          Forall (λ p, is_Some (App.created sample_dates p))
            (App.view sample_directory)) as H by (by left).
  split; [exact byte_order_total|]. split; [exact H|].
  exact (handleSort_idempotent byte_order sample_dates byte_order_total
           "name" sample_directory H).
Defined.

End HandleSortSamples.

(** ** The counter animation, beyond the claims *)

Section AnimationMore.
Import Common.

(** What a rising counter shows while it runs. *)
Lemma rising_counter_shows (t : Timer) (doc : gmap string string)
    (id : string) (N : Z) (k : nat) :
  (0 < N)%Z →
  element t = id →
  ticking t = true →
  finish t = inject_Z N →
  (increment t == inject_Z N * (16 # 1000))%Q →
  (current t == 0)%Q →
  1 ≤ k < 63 →
  (ticks k t doc).2 !! id
  = Some (formatNumber (Math_floor (current (ticks k t doc).1))) ∧
  (current (ticks k t doc).1 == inject_Z (Z.of_nat k) * increment t)%Q.
Proof.
  intros HN Hid Hrun Hfin Hinc Hcur Hk.
  destruct k as [|k]; [lia|].
  destruct (ticks_rising t doc N k HN Hrun Hfin Hinc Hcur)
    as (I1 & I2 & I3 & I4 & I5); [lia|].
  rewrite ticks_S. unfold fire. rewrite I1.
  destruct (tick_rising (ticks k t doc).1 (ticks k t doc).2 N k)
    as (T1 & T2 & T3 & T4 & T5 & T6 & T7);
    [exact HN | by rewrite I2 | by rewrite I3 | by rewrite I3 |].
  rewrite T6, I4, Hid, lookup_insert_eq. split; [reflexivity|].
  destruct T4 as [_ T4]; [lia|]. by rewrite T4, I3.
Qed.

(** X15.  A counter animated from 0 to a positive integer runs for 62
    ticks, is stopped by the 63rd, shows its target from then on, and
    until then never shows more than the target nor less than it has
    shown before. *)
Theorem animateValue_counts_up (doc : gmap string string) (id : string)
    (N : Z) :
  (0 < N)%Z →
  is_Some (doc !! id) →
  ∃ t, animateValue doc id 0 (inject_Z N) 1000 = Some t ∧
       (∀ k, k < 63 → ticking (ticks k t doc).1 = true) ∧
       (∀ k, 63 ≤ k →
             ticking (ticks k t doc).1 = false ∧
             (ticks k t doc).2 !! id = Some (formatNumber N)) ∧
       (∀ j k, 1 ≤ j ≤ k →
               ∃ zj zk,
                 (ticks j t doc).2 !! id = Some (formatNumber zj) ∧
                 (ticks k t doc).2 !! id = Some (formatNumber zk) ∧
                 (zj ≤ zk ≤ N)%Z).
Proof.
  intros HN [x Hx]. unfold animateValue. rewrite Hx. eexists.
  split; [reflexivity|].
  match goal with |- (∀ k, _ → ticking (ticks k ?t0 _).1 = _) ∧ _ =>
    generalize (eq_refl : element t0 = id);
    generalize (eq_refl : ticking t0 = true);
    generalize (eq_refl : finish t0 = inject_Z N);
    generalize (eq_refl : current t0 = 0%Q);
    assert (increment t0 == inject_Z N * (16 # 1000))%Q as Hinc;
    [|revert Hinc; generalize t0]
  end.
  { cbn [increment].
    assert (1000 / 16 == 1000 # 16)%Q as -> by reflexivity.
    assert ((16 # 1000) == / (1000 # 16))%Q as -> by reflexivity.
    unfold Qdiv, Qminus. by rewrite Qplus_0_r. }
  intros t Hinc Hcur0 Hfin Hrun Hid.
  assert (current t == 0)%Q as Hcur by (by rewrite Hcur0).
  destruct (rising_counter_stops t doc id N HN Hid Hrun Hfin Hinc Hcur)
    as (Hrise & Hstop & Hbound).
  split; [exact Hrise|]. split; [exact Hstop|].
  intros j k Hjk.
  destruct (decide (k < 63)) as [Hk|Hk].
  - destruct (rising_counter_shows t doc id N j HN Hid Hrun Hfin Hinc Hcur)
      as [Hj Hcj]; [lia|].
    destruct (rising_counter_shows t doc id N k HN Hid Hrun Hfin Hinc Hcur)
      as [Hk' Hck]; [lia|].
    eexists _, _. split; [exact Hj|]. split; [exact Hk'|].
    destruct (Hbound k) as (z & Hz & Hle); [lia|].
    rewrite Hk' in Hz. split.
    + unfold Math_floor. apply Qfloor_resp_le. rewrite Hcj, Hck.
      apply Qmult_le_compat_r.
      * rewrite <- Zle_Qle. lia.
      * rewrite Hinc. unfold Qle, Qmult, inject_Z. cbn [Qnum Qden]. lia.
    + destruct (ticks_rising t doc N k HN Hrun Hfin Hinc Hcur Hk)
        as (_ & _ & _ & _ & Hc).
      unfold Math_floor. rewrite <- (Qfloor_Z N). apply Qfloor_resp_le.
      rewrite Hck, Hinc. unfold Qle, Qmult, inject_Z. cbn [Qnum Qden]. nia.
  - destruct (Hbound j) as (zj & Hzj & Hlej); [lia|].
    destruct (Hstop k) as [_ Hzk]; [lia|].
    exists zj, N. split; [exact Hzj|]. split; [exact Hzk | lia].
Qed.

End AnimationMore.

Lemma animateValue_counts_up_witness :
  (0 < 3)%Z ∧ is_Some (page !! "totalProfiles") ∧
  ∃ t, Common.animateValue page "totalProfiles" 0 (inject_Z 3) 1000 = Some t ∧
       (ticks 63 t page).2 !! "totalProfiles" = Some "3".
Proof.
  assert (0 < 3)%Z as H1 by lia.
  assert (is_Some (page !! "totalProfiles")) as H2 by (by exists "").
  split; [exact H1|]. split; [exact H2|].
  destruct (animateValue_counts_up page "totalProfiles" 3 H1 H2)
    as (t & Ht & _ & Hstop & _).
  exists t. split; [exact Ht|]. apply (Hstop 63). lia.
Defined.

(** ** The statistics page, beyond the claims *)

Section StatsMore.
Import Common StatsPage.
Variable getTime : string → option Z.

(** X16.  Each top list holds ten profiles, or all of them when there
    are fewer; with at most ten profiles it is a permutation of the
    whole list. *)
Theorem top_lists_length (ps : list Profile) :
  length (topPosts ps) = length ps `min` 10 ∧
  length (topFollowers ps) = length ps `min` 10 ∧
  (length ps ≤ 10 → topPosts ps ≡ₚ ps ∧ topFollowers ps ≡ₚ ps).
Proof.
  unfold topPosts, topFollowers, top, slice0.
  rewrite !length_take, !sort_length.
  split; [lia|]. split; [lia|]. intros Hle.
  rewrite !take_ge by (rewrite sort_length; lia).
  split; apply sort_perm.
Qed.

Lemma renderServerStats_other (s : ServerStats) (st : State) (id : string) :
  id ≠ "serverStats" →
  document (renderServerStats s st) !! id = document st !! id.
Proof.
  intros Hid. unfold renderServerStats.
  destruct (document st !! "serverStats"); [|done].
  destruct (no_keys s); cbn [document set_document];
    by rewrite lookup_insert_ne.
Qed.

(** [loadServerStats] keeps the profile list, the timers and every
    element but [serverStats]. *)
Lemma loadServerStats_keeps (r : Fetched ServerStats) (st : State) :
  profilesData (loadServerStats r st) = profilesData st ∧
  timers (loadServerStats r st) = timers st ∧
  (∀ id, id ≠ "serverStats" →
         document (loadServerStats r st) !! id = document st !! id).
Proof.
  assert (∀ s, profilesData (renderServerStats s st) = profilesData st ∧
               timers (renderServerStats s st) = timers st) as Hrender.
  { intros s. unfold renderServerStats.
    destruct (document st !! "serverStats"); [|done]. by destruct (no_keys s). }
  split; [|split].
  - destruct r; cbn [loadServerStats]; try apply Hrender;
      cbn; by destruct (document st !! "serverStats").
  - destruct r; cbn [loadServerStats]; try apply Hrender;
      cbn; by destruct (document st !! "serverStats").
  - intros id Hid.
    destruct r; cbn [loadServerStats]; try (by apply renderServerStats_other);
      cbn; (destruct (document st !! "serverStats"); [|done]);
      cbn; by rewrite lookup_insert_ne.
Qed.

(** X17.  Whatever the outcome of the fetch, [loadServerStats] leaves
    every element but [serverStats] and the profile list as they are;
    when the fetch fails, or yields an object without keys, [serverStats]
    holds the notice that the statistics are not available, if the page
    has the element, and the page is unchanged if it has not. *)
Theorem loadServerStats_frame (r : Fetched ServerStats) (st : State) :
  profilesData (loadServerStats r st) = profilesData st ∧
  timers (loadServerStats r st) = timers st ∧
  (∀ id, id ≠ "serverStats" →
         document (loadServerStats r st) !! id = document st !! id) ∧
  ((failed r = true ∨ ∃ s, r = Loaded s ∧ no_keys s = true) →
   document (loadServerStats r st) !! "serverStats"
   = (λ _, unavailable_markup) <$> document st !! "serverStats").
Proof.
  destruct (loadServerStats_keeps r st) as (Hp & Ht & Hd).
  split; [exact Hp|]. split; [exact Ht|]. split; [exact Hd|].
  intros [Hr | (s & -> & Hs)].
  - destruct r; try done; cbn;
      (destruct (document st !! "serverStats") eqn:E;
       cbn; [by rewrite lookup_insert_eq | by rewrite E]).
  - cbn [loadServerStats]. unfold renderServerStats. rewrite Hs.
    destruct (document st !! "serverStats") eqn:E;
      cbn; [by rewrite lookup_insert_eq | by rewrite E].
Qed.

(** X18.  A short description is shown under a title alone: when the
    statistics have no title, the rendering does not depend on the
    description, as long as the object has some key. *)
Theorem renderServerStats_description_needs_title (s : ServerStats)
    (d : option string) (st : State) :
  truthy (title s) = false →
  no_keys s = false →
  no_keys (with_description d s) = false →
  renderServerStats (with_description d s) st = renderServerStats s st.
Proof.
  intros Htitle Hs Hd. unfold renderServerStats.
  rewrite Hs, Hd. cbn [version stats title with_description]. by rewrite Htitle.
Qed.

Lemma filter_from_length {A} (f : nat → A → bool) (i : nat) (l : list A) :
  length (filter_from f i l) ≤ length l.
Proof. apply sublist_length, filter_from_sublist. Qed.

(** X19.  On both pages the number of active profiles is at most the
    number of profiles, whatever the clock and the dates. *)
Theorem activeProfiles_at_most_total (now : nat → Z) (ps : list Profile) :
  (App.activeProfiles getTime now ps ≤ N.of_nat (length ps))%N ∧
  (activeProfiles getTime now ps ≤ N.of_nat (length ps))%N.
Proof.
  unfold App.activeProfiles, activeProfiles.
  pose proof (filter_from_length
                (λ i p, recently_active getTime (now i) p) 0 ps).
  lia.
Qed.

Lemma animate_frame (id : string) (finish : N) (st : State) :
  document (animate id finish st) = document st ∧
  profilesData (animate id finish st) = profilesData st.
Proof. unfold animate. by destruct (animateValue _ _ _ _ _). Qed.

Lemma render_top_other (id' : string) (count : Profile → option N)
    (rows : list Profile) (st : State) (id : string) :
  id ≠ id' →
  document (render_top id' count rows st) !! id = document st !! id ∧
  profilesData (render_top id' count rows st) = profilesData st.
Proof.
  intros Hid. unfold render_top. destruct (document st !! id'); [|done].
  cbn. by rewrite lookup_insert_ne.
Qed.

(** X20.  Initialising the statistics page writes to the two top lists
    and to the server statistics alone, and leaves in [profilesData] the
    list that was loaded, or the empty list when the load failed. *)
Theorem stats_DOMContentLoaded_frame (rp : Fetched (list Profile))
    (rs : Fetched ServerStats) (now : nat → Z) (doc : gmap string string) :
  let st := DOMContentLoaded getTime rp rs now (start doc) in
  profilesData st = match rp with Loaded json => json | _ => [] end ∧
  ∀ id, id ∉ ["topPosts"; "topFollowers"; "serverStats"] →
        document st !! id = doc !! id.
Proof.
  intros st. unfold st, DOMContentLoaded.
  set (st1 := loadProfiles rp (start doc)).
  set (st2 := updateOverviewStats getTime now st1).
  assert (document st2 = document st1 ∧ profilesData st2 = profilesData st1)
    as [Hd2 Hp2].
  { unfold st2, updateOverviewStats. split.
    - by repeat rewrite (proj1 (animate_frame _ _ _)).
    - by repeat rewrite (proj2 (animate_frame _ _ _)). }
  assert (document st1 = doc ∧
          profilesData st1 = match rp with Loaded json => json | _ => [] end)
    as [Hd1 Hp1] by (by destruct rp).
  split.
  - destruct (loadServerStats_keeps rs (renderTopProfiles st2)) as [-> _].
    unfold renderTopProfiles.
    rewrite (proj2 (render_top_other "topFollowers" _ _ _ "" ltac:(done))).
    rewrite (proj2 (render_top_other "topPosts" _ _ _ "" ltac:(done))).
    congruence.
  - intros id Hid. rewrite !elem_of_cons, elem_of_nil in Hid.
    destruct (loadServerStats_keeps rs (renderTopProfiles st2))
      as (_ & _ & Hs). rewrite Hs by tauto.
    unfold renderTopProfiles.
    rewrite (proj1 (render_top_other "topFollowers" _ _ _ id ltac:(tauto))).
    rewrite (proj1 (render_top_other "topPosts" _ _ _ id ltac:(tauto))).
    congruence.
Qed.

End StatsMore.

Lemma renderServerStats_description_needs_title_witness :
  truthy (StatsPage.title untitled_server) = false ∧
  StatsPage.no_keys untitled_server = false ∧
  StatsPage.no_keys (with_description None untitled_server) = false ∧
  StatsPage.renderServerStats (with_description None untitled_server)
    (StatsPage.start page)
  = StatsPage.renderServerStats untitled_server (StatsPage.start page).
Proof.
  split; [reflexivity|]. split; [reflexivity|]. split; [reflexivity|].
  exact (renderServerStats_description_needs_title untitled_server None
           (StatsPage.start page) eq_refl eq_refl eq_refl).
Defined.
